(** * example/ping/ping.py: the USB echo ("ping/pong") diagnostic script

    A shallow embedding of [ping.py] and the properties of its exchange
    loop, its setup and its exit status.

    The script talks to the outside world through pyusb only.  The USB
    subsystem (bus, kernel driver, device firmware) is therefore an
    interface, [UsbBackend], whose operations take the subsystem's state and
    return the next state with either a value or a raised exception.  The
    script itself runs in a state-and-exception monad over a [World]: the
    subsystem's state, the log of the pyusb calls made so far, and what was
    printed on standard output. *)

From Stdlib Require Import ZArith List String Ascii Bool Lia.
From Stdlib Require Import Strings.Byte Numbers.DecimalString.
Import ListNotations.

Local Open Scope string_scope.
Local Open Scope list_scope.
Local Open Scope Z_scope.

(** ** Python values *)

(** [bytes] objects (and the [array('B')] that [dev.read] returns, once
    passed through [bytes(...)]). *)
Definition bytes := list byte.

Fixpoint bytes_eqb (a b : bytes) : bool :=
  match a, b with
  | [], [] => true
  | x :: a', y :: b' => Byte.eqb x y && bytes_eqb a' b'
  | _, _ => false
  end.

(** [len(b)] as a Python int. *)
Definition len (b : bytes) : Z := Z.of_nat (List.length b).

(** [b * n] on bytes: [n] copies of [b] joined; the empty bytes when [n <= 0]. *)
Definition bytes_mul (b : bytes) (n : Z) : bytes :=
  List.concat (List.repeat b (Z.to_nat n)).

(** A bytes literal without escapes. *)
Definition b_ (s : string) : bytes := list_byte_of_string s.

(** [str(n)] for a Python int, as used by an f-string. *)
Definition str_of_int (n : Z) : string := NilZero.string_of_int (Z.to_int n).

(** ** Exceptions

    The classes the script and pyusb can raise, with Python's inheritance:
    [except C] catches every instance of a subclass of [C]. *)
Inductive exn_class : Type :=
| BaseException
| SystemExit
| Exception
| RuntimeError
| NotImplementedError
| OSError
| USBError
| USBTimeoutError
| ValueError
| NoBackendError
| LookupError
| IndexError
| TypeError.

Definition exn_class_eqb (a b : exn_class) : bool :=
  match a, b with
  | BaseException, BaseException | SystemExit, SystemExit
  | Exception, Exception
  | RuntimeError, RuntimeError | NotImplementedError, NotImplementedError
  | OSError, OSError | USBError, USBError
  | USBTimeoutError, USBTimeoutError | ValueError, ValueError
  | NoBackendError, NoBackendError | LookupError, LookupError
  | IndexError, IndexError | TypeError, TypeError => true
  | _, _ => false
  end.

(** The method resolution order of a class: itself, then its ancestors. *)
Definition mro (c : exn_class) : list exn_class :=
  match c with
  | BaseException => [BaseException]
  | SystemExit => [SystemExit; BaseException]
  | Exception => [Exception; BaseException]
  | RuntimeError => [RuntimeError; Exception; BaseException]
  | NotImplementedError =>
      [NotImplementedError; RuntimeError; Exception; BaseException]
  | OSError => [OSError; Exception; BaseException]
  | USBError => [USBError; OSError; Exception; BaseException]
  | USBTimeoutError =>
      [USBTimeoutError; USBError; OSError; Exception; BaseException]
  | ValueError => [ValueError; Exception; BaseException]
  | NoBackendError => [NoBackendError; ValueError; Exception; BaseException]
  | LookupError => [LookupError; Exception; BaseException]
  | IndexError => [IndexError; LookupError; Exception; BaseException]
  | TypeError => [TypeError; Exception; BaseException]
  end.

Definition issubclass (c base : exn_class) : bool :=
  existsb (exn_class_eqb base) (mro c).

(** The argument an exception instance carries. *)
Inductive exn_arg : Type :=
| NoArg
| IntArg (n : Z)
| StrArg (s : string).

Record exn : Type := mkExn { exn_cls : exn_class; exn_val : exn_arg }.

Definition isinstance (e : exn) (c : exn_class) : bool :=
  issubclass (exn_cls e) c.

Inductive result (A : Type) : Type :=
| Ok (a : A)
| Raise (e : exn).
Arguments Ok {A} a.
Arguments Raise {A} e.

(** ** USB descriptors, as pyusb presents them *)

Record Endpoint : Type := mkEndpoint {
  bEndpointAddress : Z;
  bmAttributes : Z;
  wMaxPacketSize : Z;
  bInterval : Z
}.

Record Interface : Type := mkInterface {
  bInterfaceNumber : Z;
  endpoints : list Endpoint
}.

(** A configuration: its interfaces, each with its alternate settings. *)
Definition Configuration := list (list Interface).

(** [usb.util.endpoint_type]: the transfer-type bits of [bmAttributes]. *)
Definition endpoint_type (attrs : Z) : Z := Z.land attrs 0x03.

(** [cfg[(interface, alternate_setting)]]: both are positions; pyusb raises
    [IndexError] when either is out of range. *)
Definition cfg_getitem (cfg : Configuration) (index : Z * Z) : result Interface :=
  let (i, a) := index in
  if (i <? 0) || (a <? 0) then Raise (mkExn IndexError NoArg) else
  match nth_error cfg (Z.to_nat i) with
  | None => Raise (mkExn IndexError NoArg)
  | Some alts =>
      match nth_error alts (Z.to_nat a) with
      | None => Raise (mkExn IndexError NoArg)
      | Some intf => Ok intf
      end
  end.

(** ** The USB subsystem

    [D] is the state of everything behind pyusb.  Each operation is one pyusb
    call of the script; the device handle is implicit in the state. *)
Class UsbBackend (D : Type) : Type := {
  (** [usb.core.find(idVendor=, idProduct=)]: [false] stands for [None]. *)
  backend_find : D -> Z -> Z -> D * result bool;
  backend_is_kernel_driver_active : D -> Z -> D * result bool;
  backend_detach_kernel_driver : D -> Z -> D * result unit;
  backend_claim_interface : D -> Z -> D * result unit;
  backend_release_interface : D -> Z -> D * result unit;
  backend_get_active_configuration : D -> D * result Configuration;
  (** [dev.write(endpoint, data, third)] returns the byte count written. *)
  backend_write : D -> Z -> bytes -> Z -> D * result Z;
  (** [dev.read(endpoint, size, third)] returns the bytes read. *)
  backend_read : D -> Z -> Z -> Z -> D * result bytes
}.

(** One entry of the call log per pyusb call, with its arguments. *)
Inductive call : Type :=
| CallFind (idVendor idProduct : Z)
| CallIsKernelDriverActive (interface : Z)
| CallDetachKernelDriver (interface : Z)
| CallClaimInterface (interface : Z)
| CallReleaseInterface (interface : Z)
| CallGetActiveConfiguration
| CallWrite (endpoint : Z) (data : bytes) (third : Z)
| CallRead (endpoint : Z) (size : Z) (third : Z).

(** What [print] wrote, one entry per [print] call; the entry names the
    format string and carries the values substituted into it. *)
Inductive output : Type :=
| OutEndpointAddress (ep_addr : Z)      (* "> Endpoint 0x{ep_addr:02x}" *)
| OutEndpointType (ep_type : Z)         (* " Type:            {ep_type}" *)
| OutMaxPacketSize (size : Z)           (* " Max Packet Size: {size}" *)
| OutInterval (interval : Z)            (* " Interval:        {interval}" *)
| OutPing (payload : bytes)             (* "PING -> {payload}", end=' ' *)
| OutPong (received : bytes)            (* "-> PONG {received}" *)
| OutMismatch (name : string)           (* "ERROR: Mismatch in {name} test." *)
| OutNotFound.                          (* "ERROR: Device not found." *)

Record World (D : Type) : Type := mkWorld {
  dev : D;
  calls : list call;
  stdout : list output
}.
Arguments mkWorld {D} dev calls stdout.
Arguments dev {D} w.
Arguments calls {D} w.
Arguments stdout {D} w.

(** ** The monad of the script *)
Module Py.

Definition M (D A : Type) : Type := World D -> World D * result A.

Definition ret {D A} (a : A) : M D A := fun w => (w, Ok a).

Definition raise {D A} (e : exn) : M D A := fun w => (w, Raise e).

Definition bind {D A B} (m : M D A) (k : A -> M D B) : M D B :=
  fun w =>
    match m w with
    | (w', Ok a) => k a w'
    | (w', Raise e) => (w', Raise e)
    end.

(** [try: body  except classes: handler]. *)
Definition try_except {D A} (body : M D A) (classes : list exn_class)
    (handler : M D A) : M D A :=
  fun w =>
    match body w with
    | (w', Ok a) => (w', Ok a)
    | (w', Raise e) =>
        if existsb (isinstance e) classes then handler w'
        else (w', Raise e)
    end.

Definition print {D} (o : output) : M D unit :=
  fun w => (mkWorld (dev w) (calls w) (stdout w ++ [o]), Ok tt).

(** A pyusb call: logged, then performed on the subsystem's state. *)
Definition invoke {D A} (c : call) (op : D -> D * result A) : M D A :=
  fun w =>
    let (d', r) := op (dev w) in
    (mkWorld d' (calls w ++ [c]) (stdout w), r).

End Py.

Declare Scope py_scope.
Delimit Scope py_scope with py.
Notation "x <- m ;; k" := (Py.bind m (fun x => k))
  (at level 61, m at next level, right associativity) : py_scope.
Notation "m ;; k" := (Py.bind m (fun _ => k))
  (at level 61, right associativity) : py_scope.
Local Open Scope py_scope.

(** ** The script *)

Definition VID : Z := 0x1d6b.
Definition PID : Z := 0x0104.
Definition INTERFACE : Z := 0.
Definition EP_IN : Z := 0x81.
Definition EP_OUT : Z := 0x01.

Section Script.

Context {D : Type} `{UsbBackend D}.

Abbreviation M := (Py.M D).

(** *** The pyusb calls the script makes *)

Definition usb_core_find (idVendor idProduct : Z) : M bool :=
  Py.invoke (CallFind idVendor idProduct)
    (fun d => backend_find d idVendor idProduct).

Definition dev_is_kernel_driver_active (interface : Z) : M bool :=
  Py.invoke (CallIsKernelDriverActive interface)
    (fun d => backend_is_kernel_driver_active d interface).

Definition dev_detach_kernel_driver (interface : Z) : M unit :=
  Py.invoke (CallDetachKernelDriver interface)
    (fun d => backend_detach_kernel_driver d interface).

Definition usb_util_claim_interface (interface : Z) : M unit :=
  Py.invoke (CallClaimInterface interface)
    (fun d => backend_claim_interface d interface).

Definition usb_util_release_interface (interface : Z) : M unit :=
  Py.invoke (CallReleaseInterface interface)
    (fun d => backend_release_interface d interface).

Definition dev_get_active_configuration : M Configuration :=
  Py.invoke CallGetActiveConfiguration backend_get_active_configuration.

Definition dev_write (endpoint : Z) (data : bytes) (third : Z) : M Z :=
  Py.invoke (CallWrite endpoint data third)
    (fun d => backend_write d endpoint data third).

Definition dev_read (endpoint size third : Z) : M bytes :=
  Py.invoke (CallRead endpoint size third)
    (fun d => backend_read d endpoint size third).

(** [sys.exit(code)] and the builtin [exit(code)]: raise [SystemExit]. *)
Definition sys_exit {A} (code : Z) : M A :=
  Py.raise (mkExn SystemExit (IntArg code)).

(** *** prepare_device *)

Definition prepare_device : M unit :=
  Py.try_except
    (active <- dev_is_kernel_driver_active INTERFACE ;;
     if active then dev_detach_kernel_driver INTERFACE else Py.ret tt)
    [NotImplementedError; USBError]
    (Py.ret tt) ;;
  usb_util_claim_interface INTERFACE.

(** *** endpoint_config *)

(** The [for ep in intf.endpoints()] loop, with the value of [pack_size]
    on entry. *)
Fixpoint endpoint_loop (eps : list Endpoint) (pack_size : Z) : M Z :=
  match eps with
  | [] => Py.ret pack_size
  | ep :: rest =>
      let ep_addr := bEndpointAddress ep in
      let ep_type := endpoint_type (bmAttributes ep) in
      Py.print (OutEndpointAddress ep_addr) ;;
      Py.print (OutEndpointType ep_type) ;;
      Py.print (OutMaxPacketSize (wMaxPacketSize ep)) ;;
      Py.print (OutInterval (bInterval ep)) ;;
      endpoint_loop rest
        (if ep_addr =? EP_IN then wMaxPacketSize ep else pack_size)
  end.

Definition endpoint_config : M Z :=
  cfg <- dev_get_active_configuration ;;
  intf <- (fun w => (w, cfg_getitem cfg (INTERFACE, 0))) ;;
  endpoint_loop (endpoints intf) 0.

(** *** send_and_receive *)

Definition short_write_message (bytes_sent : Z) (payload : bytes) : string :=
  ("Sent " ++ str_of_int bytes_sent ++ " bytes, expected "
     ++ str_of_int (len payload) ++ " bytes.")%string.

Definition send_and_receive (payload : bytes) (pkt_size : Z) : M bytes :=
  Py.print (OutPing payload) ;;
  bytes_sent <- dev_write EP_OUT payload INTERFACE ;;
  (if negb (bytes_sent =? len payload)
   then Py.raise (mkExn RuntimeError
                    (StrArg (short_write_message bytes_sent payload)))
   else Py.ret tt) ;;
  received <- dev_read EP_IN pkt_size INTERFACE ;;
  Py.print (OutPong received) ;;
  Py.ret received.

(** *** main *)

(** The [tests] list of [main]. *)
Definition tests (pkt_size : Z) : list (string * bytes) :=
  [ ("Text",             b_ "Hello USB!");
    ("Digits",           b_ "1234567890");
    ("Binary",           [x00; x01; x02; x03; x04]);
    ("String with NULL", b_ "ABC" ++ [x00] ++ b_ "DEF");
    ("pkt_size-1 bytes", bytes_mul (b_ "A") (pkt_size - 1)) ].

(** The [for name, data in tests] loop. *)
Fixpoint test_loop (pkt_size : Z) (vectors : list (string * bytes)) : M unit :=
  match vectors with
  | [] => Py.ret tt
  | (name, data) :: rest =>
      response <- send_and_receive data pkt_size ;;
      (if negb (bytes_eqb response data)
       then Py.print (OutMismatch name)
       else Py.ret tt) ;;
      test_loop pkt_size rest
  end.

Definition main : M unit :=
  found <- usb_core_find VID PID ;;
  (if negb found
   then Py.print OutNotFound ;; sys_exit 1
   else Py.ret tt) ;;
  prepare_device ;;
  pkt_size <- endpoint_config ;;
  test_loop pkt_size (tests pkt_size) ;;
  usb_util_release_interface INTERFACE.

(** *** The [__main__] block and the process's exit status *)

Definition script : M unit :=
  main ;;
  sys_exit 0.

(** The status the interpreter exits with: the code of a [SystemExit]
    ([None] counts as 0, any other object as 1), 1 after any other
    uncaught exception, 0 when the script runs off its end. *)
Definition exit_status (r : result unit) : Z :=
  match r with
  | Ok _ => 0
  | Raise e =>
      if isinstance e SystemExit then
        match exn_val e with
        | IntArg code => code
        | NoArg => 0
        | StrArg _ => 1
        end
      else 1
  end.

Definition run (w : World D) : World D * Z :=
  let (w', r) := script w in (w', exit_status r).

End Script.


(** ** Vocabulary of the properties *)

Section Vocabulary.

Context {D : Type} `{UsbBackend D}.

(** The transport echoes every payload of [vectors] losslessly: from any
    state satisfying [Inv], the write accepts the whole payload and the read
    of [pkt_size] bytes that follows returns exactly the bytes just written
    (and [Inv] holds again). *)
Definition lossless_echo (Inv : D -> Prop) (pkt_size : Z)
    (vectors : list (string * bytes)) : Prop :=
  forall d name payload,
    Inv d -> In (name, payload) vectors ->
    exists d1 d2,
      backend_write d EP_OUT payload INTERFACE = (d1, Ok (len payload)) /\
      backend_read d1 EP_IN pkt_size INTERFACE = (d2, Ok payload) /\
      Inv d2.

(** What a run prints, and which calls it makes, for vectors that are all
    echoed unchanged: per vector the PING and PONG entries with the
    payload, and no mismatch entry. *)
Definition matched_output (vectors : list (string * bytes)) : list output :=
  flat_map (fun v => [OutPing (snd v); OutPong (snd v)]) vectors.

Definition exchange_calls (pkt_size : Z) (vectors : list (string * bytes))
    : list call :=
  flat_map (fun v => [CallWrite EP_OUT (snd v) INTERFACE;
                      CallRead EP_IN pkt_size INTERFACE]) vectors.

(** [main], started in [w], finds the device, prepares it and reads the
    endpoint descriptors without raising; it enters its test loop in [w']
    with [pkt_size]. *)
Definition reaches_loop (w w' : World D) (pkt_size : Z) : Prop :=
  exists w1 w2,
    usb_core_find VID PID w = (w1, Ok true) /\
    prepare_device w1 = (w2, Ok tt) /\
    endpoint_config w2 = (w', Ok pkt_size).

(** The classes of the [except] clause of [prepare_device]. *)
Definition tolerated (e : exn) : bool :=
  existsb (isinstance e) [NotImplementedError; USBError].

(** The detach step of [prepare_device] (the body of its [try]) raises [e],
    leaving the world [w']: either the query or the detach itself faults. *)
Inductive detach_fault (w : World D) : World D -> exn -> Prop :=
| fault_in_query d e :
    backend_is_kernel_driver_active (dev w) INTERFACE = (d, Raise e) ->
    detach_fault w
      (mkWorld d (calls w ++ [CallIsKernelDriverActive INTERFACE]) (stdout w)) e
| fault_in_detach d1 d2 e :
    backend_is_kernel_driver_active (dev w) INTERFACE = (d1, Ok true) ->
    backend_detach_kernel_driver d1 INTERFACE = (d2, Raise e) ->
    detach_fault w
      (mkWorld d2 (calls w ++ [CallIsKernelDriverActive INTERFACE;
                               CallDetachKernelDriver INTERFACE]) (stdout w)) e.

(** Every call that [m] adds to the log satisfies [P]. *)
Definition logs_only (P : call -> bool) {A} (m : Py.M D A) : Prop :=
  forall w w' r, m w = (w', r) ->
    exists l, calls w' = calls w ++ l /\ forallb P l = true.

(** The detach step of [prepare_device] is over without an exception
    leaving the [try]: the driver was not active, or it was detached, or the
    step raised a tolerated exception.  [w'] is the world it leaves. *)
Inductive detach_passed (w : World D) : World D -> Prop :=
| passed_inactive d :
    backend_is_kernel_driver_active (dev w) INTERFACE = (d, Ok false) ->
    detach_passed w
      (mkWorld d (calls w ++ [CallIsKernelDriverActive INTERFACE]) (stdout w))
| passed_detached d1 d2 :
    backend_is_kernel_driver_active (dev w) INTERFACE = (d1, Ok true) ->
    backend_detach_kernel_driver d1 INTERFACE = (d2, Ok tt) ->
    detach_passed w
      (mkWorld d2 (calls w ++ [CallIsKernelDriverActive INTERFACE;
                               CallDetachKernelDriver INTERFACE]) (stdout w))
| passed_tolerated w' e :
    detach_fault w w' e -> tolerated e = true ->
    detach_passed w w'.

End Vocabulary.

(** What [endpoint_config] prints for a list of endpoint descriptors. *)
Definition descriptor_output (eps : list Endpoint) : list output :=
  flat_map (fun ep => [OutEndpointAddress (bEndpointAddress ep);
                       OutEndpointType (endpoint_type (bmAttributes ep));
                       OutMaxPacketSize (wMaxPacketSize ep);
                       OutInterval (bInterval ep)]) eps.

Definition is_inbound (ep : Endpoint) : bool := bEndpointAddress ep =? EP_IN.

Definition is_claim (c : call) : bool :=
  match c with CallClaimInterface _ => true | _ => false end.

Definition is_release (c : call) : bool :=
  match c with CallReleaseInterface _ => true | _ => false end.

Definition not_release (c : call) : bool := negb (is_release c).

Definition is_detach_step (c : call) : bool :=
  match c with
  | CallIsKernelDriverActive _ | CallDetachKernelDriver _ => true
  | _ => false
  end.

Definition is_empty_write (c : call) : bool :=
  match c with CallWrite _ [] _ => true | _ => false end.

Section Replies.

Context {D : Type} `{UsbBackend D}.

(** The transport, started in [d], takes the payload of each vector whole
    and answers the read of [pkt_size] bytes that follows with the
    corresponding entry of [responses]; it is left in [d']. *)
Fixpoint transport_replies (pkt_size : Z) (d : D)
    (vectors : list (string * bytes)) (responses : list bytes) (d' : D)
    : Prop :=
  match vectors, responses with
  | [], [] => d' = d
  | v :: vectors', r :: responses' =>
      exists d1 d2,
        backend_write d EP_OUT (snd v) INTERFACE = (d1, Ok (len (snd v))) /\
        backend_read d1 EP_IN pkt_size INTERFACE = (d2, Ok r) /\
        transport_replies pkt_size d2 vectors' responses' d'
  | _, _ => False
  end.

End Replies.

(** [l] is an initial part of [full]. *)
Definition prefix_of {A} (l full : list A) : Prop :=
  exists n, l = firstn n full.

(** What the loop prints for one vector, given the reply read for it. *)
Definition vector_report (v : string * bytes) (response : bytes) : list output :=
  [OutPing (snd v); OutPong response]
    ++ (if bytes_eqb response (snd v) then [] else [OutMismatch (fst v)]).

Definition loop_report (vectors : list (string * bytes))
    (responses : list bytes) : list output :=
  flat_map (fun vr => vector_report (fst vr) (snd vr))
    (combine vectors responses).

(** The calls of [prepare_device] when nothing stops it; [detached] tells
    whether the kernel driver had to be detached. *)
Definition prepare_log (detached : bool) : list call :=
  [CallIsKernelDriverActive INTERFACE]
    ++ (if detached then [CallDetachKernelDriver INTERFACE] else [])
    ++ [CallClaimInterface INTERFACE].

(** The calls of a whole run of [main] when nothing stops it. *)
Definition full_log (detached : bool) (pkt_size : Z) : list call :=
  [CallFind VID PID]
    ++ prepare_log detached
    ++ [CallGetActiveConfiguration]
    ++ flat_map (fun v => [CallWrite EP_OUT (snd v) INTERFACE;
                           CallRead EP_IN pkt_size INTERFACE]) (tests pkt_size)
    ++ [CallReleaseInterface INTERFACE].

(** ** A simulated echo peer

    A concrete [UsbBackend]: a gadget whose behaviour is a table ([firmware])
    and whose state counts the transfers made and keeps the last payload
    written.  The properties below are instantiated on it. *)
Module Sim.

Record firmware : Type := mkFirmware {
  fw_present : bool;
  fw_driver_active : result bool;
  fw_detach : result unit;
  fw_claim : result unit;
  fw_release : result unit;
  fw_config : result Configuration;
  (** the answer to the [i]-th write (from 0) of a payload *)
  fw_write : nat -> bytes -> result Z;
  (** the answer to the [i]-th read, given the last payload written and the
      size asked for *)
  fw_read : nat -> bytes -> Z -> result bytes
}.

Record state : Type := mkState {
  fw : firmware;
  writes : nat;
  reads : nat;
  last_written : bytes
}.

#[global] Instance backend : UsbBackend state := {
  backend_find d idVendor idProduct :=
    (d, Ok (fw_present (fw d) && (idVendor =? VID) && (idProduct =? PID)));
  backend_is_kernel_driver_active d _ := (d, fw_driver_active (fw d));
  backend_detach_kernel_driver d _ := (d, fw_detach (fw d));
  backend_claim_interface d _ := (d, fw_claim (fw d));
  backend_release_interface d _ := (d, fw_release (fw d));
  backend_get_active_configuration d := (d, fw_config (fw d));
  backend_write d _ data _ :=
    (mkState (fw d) (S (writes d)) (reads d) data,
     fw_write (fw d) (writes d) data);
  backend_read d _ size _ :=
    (mkState (fw d) (writes d) (S (reads d)) (last_written d),
     fw_read (fw d) (reads d) (last_written d) size)
}.

Definition bulk_in (size : Z) : Endpoint := mkEndpoint 0x81 0x02 size 0.
Definition bulk_out (size : Z) : Endpoint := mkEndpoint 0x01 0x02 size 0.

(** One interface, one alternate setting, a bulk pair of 64 bytes. *)
Definition pong_config : Configuration :=
  [[ mkInterface 0 [bulk_in 64; bulk_out 64] ]].

(** The same interface without its inbound endpoint. *)
Definition out_only_config : Configuration :=
  [[ mkInterface 0 [bulk_out 64] ]].

Definition usb_error : exn := mkExn USBError (StrArg "Pipe error").

(** A faithful peer: every write is taken whole, every read returns the
    last payload, cut to the size asked for. *)
Definition pong : firmware :=
  mkFirmware true (Ok true) (Ok tt) (Ok tt) (Ok tt) (Ok pong_config)
    (fun _ data => Ok (len data))
    (fun _ last size => Ok (firstn (Z.to_nat size) last)).

Definition with_detach (r : result unit) (f : firmware) : firmware :=
  mkFirmware (fw_present f) (fw_driver_active f) r (fw_claim f) (fw_release f)
    (fw_config f) (fw_write f) (fw_read f).

Definition with_release (r : result unit) (f : firmware) : firmware :=
  mkFirmware (fw_present f) (fw_driver_active f) (fw_detach f) (fw_claim f) r
    (fw_config f) (fw_write f) (fw_read f).

Definition with_config (r : result Configuration) (f : firmware) : firmware :=
  mkFirmware (fw_present f) (fw_driver_active f) (fw_detach f) (fw_claim f)
    (fw_release f) r (fw_write f) (fw_read f).

Definition with_write (g : nat -> bytes -> result Z) (f : firmware) : firmware :=
  mkFirmware (fw_present f) (fw_driver_active f) (fw_detach f) (fw_claim f)
    (fw_release f) (fw_config f) g (fw_read f).

Definition with_read (g : nat -> bytes -> Z -> result bytes) (f : firmware)
    : firmware :=
  mkFirmware (fw_present f) (fw_driver_active f) (fw_detach f) (fw_claim f)
    (fw_release f) (fw_config f) (fw_write f) g.

(** No gadget on the bus. *)
Definition absent : firmware :=
  mkFirmware false (fw_driver_active pong) (fw_detach pong) (fw_claim pong)
    (fw_release pong) (fw_config pong) (fw_write pong) (fw_read pong).

(** The [k]-th read (from 0) stalls. *)
Definition stall_at (k : nat) : firmware :=
  with_read (fun i last size =>
               if Nat.eqb i k then Raise usb_error
               else fw_read pong i last size) pong.

(** The [k]-th write (from 0) reports one byte fewer than it was given. *)
Definition short_at (k : nat) : firmware :=
  with_write (fun i data =>
                if Nat.eqb i k then Ok (len data - 1)
                else fw_write pong i data) pong.

(** The [k]-th read (from 0) returns the payload with its first byte
    dropped. *)
Definition lossy_at (k : nat) : firmware :=
  with_read (fun i last size =>
               if Nat.eqb i k then Ok (tl last)
               else fw_read pong i last size) pong.

(** The world before the script starts. *)
Definition boot (f : firmware) : World state :=
  mkWorld (mkState f 0 0 []) [] [].

(** The firmware is unchanged: what the echo property is stated over. *)
Definition runs (f : firmware) (d : state) : Prop := fw d = f.

(** The worlds a run goes through: after the device was found, after
    [prepare_device], on entry of the test loop. *)
Definition found (f : firmware) : World state :=
  fst (usb_core_find VID PID (boot f)).

Definition prepared (f : firmware) : World state :=
  fst (prepare_device (found f)).

Definition at_loop (f : firmware) : World state :=
  fst (endpoint_config (prepared f)).

(** *** Scenarios, evaluated *)

(** A faithful peer. *)
Definition pong_prepared : World state := Eval vm_compute in prepared pong.
Definition pong_loop : World state := Eval vm_compute in at_loop pong.

(** The write of the second vector comes back one byte short. *)
Definition short_loop : World state := Eval vm_compute in at_loop (short_at 1).
Definition short_w1 : World state :=
  Eval vm_compute in fst (test_loop 64 (firstn 1 (tests 64)) short_loop).
Definition short_d1 : state :=
  Eval vm_compute in
    fst (backend_write (dev short_w1) EP_OUT (b_ "1234567890") INTERFACE).

(** The read of the third vector of five stalls. *)
Definition stall_loop : World state := Eval vm_compute in at_loop (stall_at 2).
Definition stall_w1 : World state :=
  Eval vm_compute in fst (test_loop 64 (firstn 2 (tests 64)) stall_loop).
Definition stall_d1 : state :=
  Eval vm_compute in
    fst (backend_write (dev stall_w1) EP_OUT [x00; x01; x02; x03; x04]
           INTERFACE).
Definition stall_d2 : state :=
  Eval vm_compute in fst (backend_read stall_d1 EP_IN 64 INTERFACE).
Definition stall_end : World state :=
  Eval vm_compute in fst (main (boot (stall_at 2))).

(** The reply to the first vector lacks its first byte. *)
Definition lossy_loop : World state := Eval vm_compute in at_loop (lossy_at 0).
Definition lossy_d1 : state :=
  Eval vm_compute in
    fst (backend_write (dev lossy_loop) EP_OUT (b_ "Hello USB!") INTERFACE).
Definition lossy_d2 : state :=
  Eval vm_compute in fst (backend_read lossy_d1 EP_IN 64 INTERFACE).
Definition lossy_done : World state :=
  Eval vm_compute in fst (test_loop 64 (tests 64) lossy_loop).
Definition lossy_released : state :=
  Eval vm_compute in
    fst (backend_release_interface (dev lossy_done) INTERFACE).

(** The release of the interface fails (the gadget was unplugged after the
    last exchange). *)
Definition unplugged : firmware := with_release (Raise usb_error) pong.
Definition unplugged_loop : World state := Eval vm_compute in at_loop unplugged.
Definition unplugged_done : World state :=
  Eval vm_compute in fst (test_loop 64 (tests 64) unplugged_loop).

(** The kernel driver cannot be detached. *)
Definition busy : firmware := with_detach (Raise usb_error) pong.
Definition busy_found : World state := Eval vm_compute in found busy.
Definition busy_detach_failed : World state :=
  Eval vm_compute in
    mkWorld (dev busy_found)
      (calls busy_found ++ [CallIsKernelDriverActive INTERFACE;
                            CallDetachKernelDriver INTERFACE])
      (stdout busy_found).
Definition busy_prepared : World state := Eval vm_compute in prepared busy.

(** The detach fails with an exception of another class. *)
Definition type_error : exn := mkExn TypeError NoArg.
Definition jammed : firmware := with_detach (Raise type_error) pong.
Definition jammed_found : World state := Eval vm_compute in found jammed.
Definition jammed_detach_failed : World state :=
  Eval vm_compute in
    mkWorld (dev jammed_found)
      (calls jammed_found ++ [CallIsKernelDriverActive INTERFACE;
                              CallDetachKernelDriver INTERFACE])
      (stdout jammed_found).

(** The interface is held by another process: the claim fails. *)
Definition taken : firmware :=
  mkFirmware true (Ok true) (Ok tt) (Raise usb_error) (Ok tt) (Ok pong_config)
    (fw_write pong) (fw_read pong).
Definition taken_found : World state := Eval vm_compute in found taken.
Definition taken_detached : World state :=
  Eval vm_compute in
    mkWorld (dev taken_found)
      (calls taken_found ++ [CallIsKernelDriverActive INTERFACE;
                             CallDetachKernelDriver INTERFACE])
      (stdout taken_found).

(** The interface has no inbound endpoint: pyusb finds no endpoint of
    address 0x81 to read from and raises [ValueError]. *)
Definition value_error : exn :=
  mkExn ValueError (StrArg "Invalid endpoint address 0x81").
Definition out_only : firmware :=
  with_read (fun _ _ _ => Raise value_error)
    (with_config (Ok out_only_config) pong).
Definition out_only_prepared : World state :=
  Eval vm_compute in prepared out_only.
Definition out_only_loop : World state := Eval vm_compute in at_loop out_only.
Definition out_only_end : World state :=
  Eval vm_compute in fst (main (boot out_only)).

(** The [k]-th write (from 0) faults. *)
Definition jam_at (k : nat) : firmware :=
  with_write (fun i data =>
                if Nat.eqb i k then Raise usb_error
                else fw_write pong i data) pong.
Definition jam_loop : World state := Eval vm_compute in at_loop (jam_at 1).
Definition jam_w1 : World state :=
  Eval vm_compute in fst (test_loop 64 (firstn 1 (tests 64)) jam_loop).
Definition jam_d1 : state :=
  Eval vm_compute in
    fst (backend_write (dev jam_w1) EP_OUT (b_ "1234567890") INTERFACE).

(** The active configuration cannot be read. *)
Definition mute : firmware := with_config (Raise usb_error) pong.
Definition mute_found : World state := Eval vm_compute in found mute.
Definition mute_prepared : World state := Eval vm_compute in prepared mute.
Definition mute_failed : World state := Eval vm_compute in at_loop mute.

(** Two endpoints answer to address 0x81, with an outbound one between. *)
Definition twin_interface : Interface :=
  mkInterface 0 [bulk_in 8; bulk_out 512; bulk_in 64].
Definition twin : firmware := with_config (Ok [[twin_interface]]) pong.
Definition twin_prepared : World state := Eval vm_compute in prepared twin.

End Sim.


(** ** Proof automation *)

(** Runs the script's monadic code up to the next backend operation. *)
Ltac run_script :=
  unfold send_and_receive, prepare_device, endpoint_config, main, script,
    usb_core_find, dev_is_kernel_driver_active, dev_detach_kernel_driver,
    usb_util_claim_interface, usb_util_release_interface,
    dev_get_active_configuration, dev_write, dev_read, sys_exit,
    Py.try_except, Py.bind, Py.print, Py.invoke, Py.ret, Py.raise;
  cbn [dev calls stdout negb fst snd].

(** Runs the detach step of [prepare_device], leaving the claim folded. *)
Ltac run_detach :=
  unfold prepare_device, dev_is_kernel_driver_active,
    dev_detach_kernel_driver, Py.try_except, Py.bind, Py.invoke, Py.ret;
  cbn [dev calls stdout].

(** Concrete runs of the simulation are settled by evaluation. *)
Ltac by_eval := vm_compute; reflexivity.

(** The simulated [main] gets to its loop: each step of the setup computes. *)
Ltac enters_loop f :=
  exists (Sim.found f), (Sim.prepared f);
  split; [by_eval|split; by_eval].


(** * Properties *)

(** ** Bytes *)

Lemma bytes_eqb_refl (a : bytes) : bytes_eqb a a = true.
Proof.
  induction a as [|x a IH]; simpl; [reflexivity|].
  now rewrite (Byte.byte_dec_lb eq_refl), IH.
Qed.

Lemma bytes_eqb_eq (a b : bytes) : bytes_eqb a b = true <-> a = b.
Proof.
  split; [|intros ->; apply bytes_eqb_refl].
  revert b; induction a as [|x a IH]; intros [|y b]; simpl; try discriminate.
  - reflexivity.
  - intros E. apply andb_true_iff in E as [Exy Eab].
    apply Byte.byte_dec_bl in Exy. apply IH in Eab. congruence.
Qed.

Lemma bytes_eqb_neq (a b : bytes) : a <> b -> bytes_eqb a b = false.
Proof.
  intros N. destruct (bytes_eqb a b) eqn:E; [|reflexivity].
  now apply bytes_eqb_eq in E.
Qed.

Lemma bytes_mul_length (b : bytes) (n : Z) :
  len (bytes_mul b n) = Z.max 0 n * len b.
Proof.
  unfold bytes_mul, len.
  assert (L : forall k, List.length (List.concat (List.repeat b k))
                        = (k * List.length b)%nat).
  { induction k as [|k IH]; simpl; [reflexivity|].
    now rewrite length_app, IH. }
  rewrite L, Nat2Z.inj_mul. f_equal. lia.
Qed.

Lemma bytes_mul_all (x : byte) (n : Z) :
  Forall (eq x) (bytes_mul [x] n).
Proof.
  unfold bytes_mul. induction (Z.to_nat n) as [|k IH]; simpl; auto.
Qed.

(** ** Exception classes *)

Lemma tolerated_classes (e : exn) :
  tolerated e = true <->
  In (exn_cls e) [NotImplementedError; USBError; USBTimeoutError].
Proof.
  destruct e as [c v]. unfold tolerated, isinstance. simpl exn_cls.
  destruct c; cbn; intuition (try discriminate; try congruence).
Qed.

Section Properties.

Context {D : Type} `{UsbBackend D}.

Implicit Types (w : World D) (d : D) (e : exn).

(** ** The monad and the pyusb calls *)

Lemma bind_ok {A B} (m : Py.M D A) (k : A -> Py.M D B) w w' a :
  m w = (w', Ok a) -> Py.bind m k w = k a w'.
Proof. intros E. unfold Py.bind. now rewrite E. Qed.

Lemma bind_raise {A B} (m : Py.M D A) (k : A -> Py.M D B) w w' e :
  m w = (w', Raise e) -> Py.bind m k w = (w', Raise e).
Proof. intros E. unfold Py.bind. now rewrite E. Qed.

Lemma app_two {A} (l : list A) (x y : A) : (l ++ [x]) ++ [y] = l ++ [x; y].
Proof. now rewrite <- app_assoc. Qed.

(** ** send_and_receive, case by case *)

Lemma send_and_receive_ok (payload : bytes) (pkt_size : Z) w d1 d2 received :
  backend_write (dev w) EP_OUT payload INTERFACE = (d1, Ok (len payload)) ->
  backend_read d1 EP_IN pkt_size INTERFACE = (d2, Ok received) ->
  send_and_receive payload pkt_size w =
    (mkWorld d2
       (calls w ++ [CallWrite EP_OUT payload INTERFACE;
                    CallRead EP_IN pkt_size INTERFACE])
       (stdout w ++ [OutPing payload; OutPong received]),
     Ok received).
Proof.
  intros Hw Hr. run_script. rewrite Hw. run_script.
  rewrite Z.eqb_refl. run_script. rewrite Hr. run_script.
  now rewrite !app_two.
Qed.

Lemma send_and_receive_short (payload : bytes) (pkt_size : Z) w d1 n :
  backend_write (dev w) EP_OUT payload INTERFACE = (d1, Ok n) ->
  n <> len payload ->
  send_and_receive payload pkt_size w =
    (mkWorld d1 (calls w ++ [CallWrite EP_OUT payload INTERFACE])
       (stdout w ++ [OutPing payload]),
     Raise (mkExn RuntimeError (StrArg (short_write_message n payload)))).
Proof.
  intros Hw Hn. run_script. rewrite Hw. run_script.
  apply Z.eqb_neq in Hn. rewrite Hn. reflexivity.
Qed.

Lemma send_and_receive_write_fault (payload : bytes) (pkt_size : Z) w d1 e :
  backend_write (dev w) EP_OUT payload INTERFACE = (d1, Raise e) ->
  send_and_receive payload pkt_size w =
    (mkWorld d1 (calls w ++ [CallWrite EP_OUT payload INTERFACE])
       (stdout w ++ [OutPing payload]),
     Raise e).
Proof.
  intros Hw. run_script. rewrite Hw. reflexivity.
Qed.

Lemma send_and_receive_read_fault (payload : bytes) (pkt_size : Z) w d1 d2 e :
  backend_write (dev w) EP_OUT payload INTERFACE = (d1, Ok (len payload)) ->
  backend_read d1 EP_IN pkt_size INTERFACE = (d2, Raise e) ->
  send_and_receive payload pkt_size w =
    (mkWorld d2
       (calls w ++ [CallWrite EP_OUT payload INTERFACE;
                    CallRead EP_IN pkt_size INTERFACE])
       (stdout w ++ [OutPing payload]),
     Raise e).
Proof.
  intros Hw Hr. run_script. rewrite Hw. run_script.
  rewrite Z.eqb_refl. run_script. rewrite Hr. run_script.
  now rewrite !app_two.
Qed.

(** ** The test loop, step by step *)

Lemma test_loop_step (pkt_size : Z) (name : string) (data : bytes)
    (rest : list (string * bytes)) w w1 response :
  send_and_receive data pkt_size w = (w1, Ok response) ->
  test_loop pkt_size ((name, data) :: rest) w =
    test_loop pkt_size rest
      (if bytes_eqb response data then w1
       else mkWorld (dev w1) (calls w1) (stdout w1 ++ [OutMismatch name])).
Proof.
  intros E. cbn [test_loop]. rewrite (bind_ok _ _ _ _ _ E).
  destruct (bytes_eqb response data); reflexivity.
Qed.

Lemma test_loop_abort (pkt_size : Z) (name : string) (data : bytes)
    (rest : list (string * bytes)) w w1 e :
  send_and_receive data pkt_size w = (w1, Raise e) ->
  test_loop pkt_size ((name, data) :: rest) w = (w1, Raise e).
Proof. intros E. cbn [test_loop]. now rewrite (bind_raise _ _ _ _ _ E). Qed.

Lemma test_loop_app (pkt_size : Z) (pre post : list (string * bytes)) w :
  test_loop pkt_size (pre ++ post) w =
    (test_loop pkt_size pre ;; test_loop pkt_size post) w.
Proof.
  revert w. induction pre as [|[name data] pre IH]; intros w.
  - reflexivity.
  - cbn [app]. destruct (send_and_receive data pkt_size w) as [w1 [r|e]] eqn:E.
    + rewrite (test_loop_step _ _ _ _ _ _ _ E), IH.
      unfold Py.bind at 2. now rewrite (test_loop_step _ _ _ pre _ _ _ E).
    + rewrite (test_loop_abort _ _ _ _ _ _ _ E).
      unfold Py.bind. now rewrite (test_loop_abort _ _ _ pre _ _ _ E).
Qed.

Lemma test_loop_after (pkt_size : Z) (pre post : list (string * bytes)) w w1 :
  test_loop pkt_size pre w = (w1, Ok tt) ->
  test_loop pkt_size (pre ++ post) w = test_loop pkt_size post w1.
Proof. intros E. now rewrite test_loop_app, (bind_ok _ _ _ _ _ E). Qed.

(** ** From [main] to its loop and back *)

Lemma main_enters_loop w w0 (pkt_size : Z) :
  reaches_loop w w0 pkt_size ->
  main w = (test_loop pkt_size (tests pkt_size) ;;
            usb_util_release_interface INTERFACE) w0.
Proof.
  intros (w1 & w2 & Hfind & Hprep & Hcfg). unfold main.
  rewrite (bind_ok _ _ _ _ _ Hfind). cbn [negb].
  unfold Py.bind at 1. cbn [Py.ret].
  rewrite (bind_ok _ _ _ _ _ Hprep).
  now rewrite (bind_ok _ _ _ _ _ Hcfg).
Qed.

Lemma main_loop_raises w w0 w1 (pkt_size : Z) e :
  reaches_loop w w0 pkt_size ->
  test_loop pkt_size (tests pkt_size) w0 = (w1, Raise e) ->
  main w = (w1, Raise e).
Proof.
  intros R E. rewrite (main_enters_loop _ _ _ R).
  now rewrite (bind_raise _ _ _ _ _ E).
Qed.

Lemma main_loop_done w w0 w1 (pkt_size : Z) :
  reaches_loop w w0 pkt_size ->
  test_loop pkt_size (tests pkt_size) w0 = (w1, Ok tt) ->
  main w = usb_util_release_interface INTERFACE w1.
Proof.
  intros R E. rewrite (main_enters_loop _ _ _ R).
  now rewrite (bind_ok _ _ _ _ _ E).
Qed.

Lemma run_of_main w w' (r : result unit) :
  main w = (w', r) ->
  run w = (w', match r with
               | Ok _ => 0
               | Raise e => exit_status (Raise e)
               end).
Proof.
  intros E. unfold run, script. destruct r as [[]|e].
  - now rewrite (bind_ok _ _ _ _ _ E).
  - now rewrite (bind_raise _ _ _ _ _ E).
Qed.

(** ** The exchange loop *)

(** C1. If the transport echoes every payload of the vectors losslessly
    (the write takes the whole payload, the read returns exactly the bytes
    just written), the loop runs to its end without raising, and what it
    prints is, vector by vector and in the order of the vectors, the PING
    and PONG entries carrying the payload, with no mismatch entry: every
    vector is reported as matched.  It makes one write and one read per
    vector, in that order.  (It holds for the empty sequence too.) *)
Theorem echo_all_matched (Inv : D -> Prop) (pkt_size : Z)
    (vectors : list (string * bytes)) w :
  Inv (dev w) ->
  lossless_echo Inv pkt_size vectors ->
  exists w',
    test_loop pkt_size vectors w = (w', Ok tt) /\
    stdout w' = stdout w ++ matched_output vectors /\
    calls w' = calls w ++ exchange_calls pkt_size vectors /\
    Inv (dev w').
Proof.
  revert w. induction vectors as [|[name data] vectors IH]; intros w Hinv Hecho.
  - exists w. cbn. now rewrite !app_nil_r.
  - destruct (Hecho (dev w) name data Hinv (or_introl eq_refl))
      as (d1 & d2 & Hw & Hr & Hinv2).
    pose proof (send_and_receive_ok _ _ _ _ _ _ Hw Hr) as E.
    rewrite (test_loop_step _ _ _ _ _ _ _ E), bytes_eqb_refl.
    edestruct IH as (w' & Hrun & Hout & Hcalls & Hinv'); cycle 2.
    + exists w'. split; [exact Hrun|]. split; [|split; [|exact Hinv']].
      * rewrite Hout. cbn. now rewrite <- app_assoc.
      * rewrite Hcalls. cbn. now rewrite <- app_assoc.
    + exact Hinv2.
    + intros d name' payload Hd Hin.
      apply (Hecho d name' payload Hd). now right.
Qed.

(** C2. If the write of a vector reports a byte count different from the
    payload's length, the loop stops there with the short-write error (a
    [RuntimeError] with the message built from both numbers); the write is
    the last call made, so no read is attempted for that vector, and
    nothing but the PING entry is printed for it. *)
Theorem short_write_aborts (pkt_size : Z) (pre post : list (string * bytes))
    (name : string) (payload : bytes) w w1 d1 (n : Z) :
  test_loop pkt_size pre w = (w1, Ok tt) ->
  backend_write (dev w1) EP_OUT payload INTERFACE = (d1, Ok n) ->
  n <> len payload ->
  test_loop pkt_size (pre ++ (name, payload) :: post) w =
    (mkWorld d1 (calls w1 ++ [CallWrite EP_OUT payload INTERFACE])
       (stdout w1 ++ [OutPing payload]),
     Raise (mkExn RuntimeError (StrArg (short_write_message n payload)))).
Proof.
  intros Hpre Hw Hn. rewrite (test_loop_after _ _ _ _ _ Hpre).
  apply test_loop_abort. now apply send_and_receive_short.
Qed.

(** C3. If the read of vector k raises (the vectors before it having been
    exchanged), the loop raises that same exception at once: the faulting
    read is the last call made (one write and one read for vector k, no
    retry, nothing for the vectors after it), and no PONG or mismatch entry
    is printed for vector k or any later vector.  When the loop is that of
    [main], [main] raises the exception too and the process ends on it. *)
Theorem read_fault_aborts_run (pkt_size : Z) (pre post : list (string * bytes))
    (name : string) (payload : bytes) w w1 d1 d2 e :
  test_loop pkt_size pre w = (w1, Ok tt) ->
  backend_write (dev w1) EP_OUT payload INTERFACE = (d1, Ok (len payload)) ->
  backend_read d1 EP_IN pkt_size INTERFACE = (d2, Raise e) ->
  let w_fault :=
    mkWorld d2
      (calls w1 ++ [CallWrite EP_OUT payload INTERFACE;
                    CallRead EP_IN pkt_size INTERFACE])
      (stdout w1 ++ [OutPing payload]) in
  test_loop pkt_size (pre ++ (name, payload) :: post) w = (w_fault, Raise e) /\
  (forall w_start,
      reaches_loop w_start w pkt_size ->
      tests pkt_size = pre ++ (name, payload) :: post ->
      main w_start = (w_fault, Raise e) /\
      run w_start = (w_fault, exit_status (Raise e))).
Proof.
  intros Hpre Hw Hr w_fault.
  assert (E : test_loop pkt_size (pre ++ (name, payload) :: post) w
              = (w_fault, Raise e)).
  { rewrite (test_loop_after _ _ _ _ _ Hpre).
    apply test_loop_abort. now apply send_and_receive_read_fault with d1. }
  split; [exact E|].
  intros w_start Hreach Htests. rewrite <- Htests in E.
  pose proof (main_loop_raises _ _ _ _ _ Hreach E) as Hmain.
  split; [exact Hmain|]. now rewrite (run_of_main _ _ _ Hmain).
Qed.

(** C5. If the reply to a vector differs from its payload, the loop prints
    the PING entry, the PONG entry carrying exactly the bytes the transport
    returned, and the mismatch entry naming the vector; it raises nothing
    and goes on with the next vector from there. *)
Theorem mismatch_reported_not_fatal (pkt_size : Z) (name : string)
    (payload received : bytes) (rest : list (string * bytes)) w d1 d2 :
  backend_write (dev w) EP_OUT payload INTERFACE = (d1, Ok (len payload)) ->
  backend_read d1 EP_IN pkt_size INTERFACE = (d2, Ok received) ->
  received <> payload ->
  test_loop pkt_size ((name, payload) :: rest) w =
    test_loop pkt_size rest
      (mkWorld d2
         (calls w ++ [CallWrite EP_OUT payload INTERFACE;
                      CallRead EP_IN pkt_size INTERFACE])
         (stdout w ++ [OutPing payload; OutPong received; OutMismatch name])).
Proof.
  intros Hw Hr Hneq.
  rewrite (test_loop_step _ _ _ _ _ _ _ (send_and_receive_ok _ _ _ _ _ _ Hw Hr)).
  rewrite (bytes_eqb_neq _ _ Hneq). cbn [dev calls stdout].
  now rewrite <- app_assoc.
Qed.

(** ** prepare_device *)

Lemma prepare_device_after_fault w w1 e :
  detach_fault w w1 e ->
  prepare_device w =
    if tolerated e then usb_util_claim_interface INTERFACE w1
    else (w1, Raise e).
Proof.
  intros [d e' Hq | d1 d2 e' Hq Hd]; run_detach; rewrite Hq; run_detach.
  - unfold tolerated. destruct (existsb (isinstance e') _); reflexivity.
  - rewrite Hd. run_detach. rewrite app_two. unfold tolerated.
    destruct (existsb (isinstance e') _); reflexivity.
Qed.

Lemma prepare_device_inactive w d1 :
  backend_is_kernel_driver_active (dev w) INTERFACE = (d1, Ok false) ->
  prepare_device w =
    usb_util_claim_interface INTERFACE
      (mkWorld d1 (calls w ++ [CallIsKernelDriverActive INTERFACE]) (stdout w)).
Proof. intros Hq. run_detach. rewrite Hq. reflexivity. Qed.

Lemma prepare_device_detached w d1 d2 :
  backend_is_kernel_driver_active (dev w) INTERFACE = (d1, Ok true) ->
  backend_detach_kernel_driver d1 INTERFACE = (d2, Ok tt) ->
  prepare_device w =
    usb_util_claim_interface INTERFACE
      (mkWorld d2 (calls w ++ [CallIsKernelDriverActive INTERFACE;
                               CallDetachKernelDriver INTERFACE]) (stdout w)).
Proof.
  intros Hq Hd. run_detach. rewrite Hq. run_detach. rewrite Hd. run_detach.
  now rewrite app_two.
Qed.

Lemma claim_interface_run w d (r : result unit) :
  backend_claim_interface (dev w) INTERFACE = (d, r) ->
  usb_util_claim_interface INTERFACE w =
    (mkWorld d (calls w ++ [CallClaimInterface INTERFACE]) (stdout w), r).
Proof. intros E. run_script. now rewrite E. Qed.

Lemma prepare_device_after_detach w w2 :
  detach_passed w w2 ->
  prepare_device w = usb_util_claim_interface INTERFACE w2.
Proof.
  intros [d Hq | d1 d2 Hq Hd | w' e F T].
  - now apply prepare_device_inactive.
  - now apply prepare_device_detached with d1.
  - rewrite (prepare_device_after_fault _ _ _ F). now rewrite T.
Qed.

(** C8. When the detach step of [prepare_device] raises, the exception is
    swallowed exactly when its class is [NotImplementedError], [USBError] or
    a subclass of one of them ([USBTimeoutError] is the only one): then the
    function goes on to claim the interface; any other exception leaves
    [prepare_device] as it was raised, before any claim.  The tolerance
    covers the detach step only: however that step ended, an exception
    raised by the claim that follows leaves [prepare_device], whatever its
    class. *)
Theorem detach_tolerance :
  (forall w w1 e,
      detach_fault w w1 e ->
      (tolerated e = true <->
         In (exn_cls e) [NotImplementedError; USBError; USBTimeoutError]) /\
      (tolerated e = true ->
         prepare_device w = usb_util_claim_interface INTERFACE w1) /\
      (tolerated e = false -> prepare_device w = (w1, Raise e))) /\
  (forall w w2 d e',
      detach_passed w w2 ->
      backend_claim_interface (dev w2) INTERFACE = (d, Raise e') ->
      prepare_device w =
        (mkWorld d (calls w2 ++ [CallClaimInterface INTERFACE]) (stdout w2),
         Raise e')).
Proof.
  split.
  - intros w w1 e F. pose proof (prepare_device_after_fault _ _ _ F) as E.
    split; [apply tolerated_classes|].
    split; intros T; now rewrite T in E.
  - intros w w2 d e' P Hc. rewrite (prepare_device_after_detach _ _ P).
    now apply claim_interface_run.
Qed.

(** C10. Whenever [prepare_device] returns, the calls it made are the
    detach step's (the query, and the detach when the query said the
    driver was active, whether or not either was answered with a tolerated
    exception) followed by exactly one [claim_interface], its last call,
    which returned normally. *)
Theorem prepare_device_claims_once w w' :
  prepare_device w = (w', Ok tt) ->
  exists l,
    calls w' = calls w ++ l ++ [CallClaimInterface INTERFACE] /\
    forallb is_detach_step l = true /\
    filter is_claim (l ++ [CallClaimInterface INTERFACE])
      = [CallClaimInterface INTERFACE] /\
    stdout w' = stdout w.
Proof.
  assert (K : forall l w1,
             calls w1 = calls w ++ l -> stdout w1 = stdout w ->
             forallb is_detach_step l = true ->
             filter is_claim (l ++ [CallClaimInterface INTERFACE])
               = [CallClaimInterface INTERFACE] ->
             usb_util_claim_interface INTERFACE w1 = (w', Ok tt) ->
             exists l,
               calls w' = calls w ++ l ++ [CallClaimInterface INTERFACE] /\
               forallb is_detach_step l = true /\
               filter is_claim (l ++ [CallClaimInterface INTERFACE])
                 = [CallClaimInterface INTERFACE] /\
               stdout w' = stdout w).
  { intros l w1 Hc Ho Hl Hf E.
    destruct (backend_claim_interface (dev w1) INTERFACE) as [d r] eqn:Hb.
    rewrite (claim_interface_run _ _ _ Hb) in E. inversion E; subst.
    exists l. cbn [calls stdout]. rewrite Hc, <- app_assoc. auto. }
  destruct (backend_is_kernel_driver_active (dev w) INTERFACE)
    as [d1 [[|]|e]] eqn:Hq.
  - destruct (backend_detach_kernel_driver d1 INTERFACE) as [d2 [[]|e]] eqn:Hd.
    + rewrite (prepare_device_detached _ _ _ Hq Hd).
      apply (K [CallIsKernelDriverActive INTERFACE;
                CallDetachKernelDriver INTERFACE]); reflexivity.
    + rewrite (prepare_device_after_fault _ _ _ (fault_in_detach _ _ _ _ Hq Hd)).
      destruct (tolerated e); [|discriminate].
      apply (K [CallIsKernelDriverActive INTERFACE;
                CallDetachKernelDriver INTERFACE]); reflexivity.
  - rewrite (prepare_device_inactive _ _ Hq).
    apply (K [CallIsKernelDriverActive INTERFACE]); reflexivity.
  - rewrite (prepare_device_after_fault _ _ _ (fault_in_query _ _ _ Hq)).
    destruct (tolerated e); [|discriminate].
    apply (K [CallIsKernelDriverActive INTERFACE]); reflexivity.
Qed.

(** ** endpoint_config *)

Lemma endpoint_loop_run (eps : list Endpoint) (pack_size : Z) w :
  endpoint_loop eps pack_size w =
    (mkWorld (dev w) (calls w) (stdout w ++ descriptor_output eps),
     Ok (fold_left (fun size ep =>
                      if is_inbound ep then wMaxPacketSize ep else size)
           eps pack_size)).
Proof.
  revert pack_size w. induction eps as [|ep eps IH]; intros pack_size w.
  - cbn. rewrite app_nil_r. now destruct w.
  - cbn [endpoint_loop]. unfold Py.bind, Py.print. cbn [dev calls stdout].
    rewrite IH. cbn [dev calls stdout fold_left descriptor_output flat_map].
    unfold is_inbound. now rewrite <- !app_assoc.
Qed.

Lemma inbound_absent (eps : list Endpoint) (pack_size : Z) :
  (forall ep, In ep eps -> bEndpointAddress ep <> EP_IN) ->
  fold_left (fun size ep => if is_inbound ep then wMaxPacketSize ep else size)
    eps pack_size = pack_size.
Proof.
  revert pack_size. induction eps as [|ep eps IH]; intros pack_size Hno.
  - reflexivity.
  - cbn [fold_left]. unfold is_inbound at 2.
    rewrite (proj2 (Z.eqb_neq _ _) (Hno ep (or_introl eq_refl))).
    apply IH. intros ep' Hin. apply Hno. now right.
Qed.

Lemma inbound_last (pre post : list Endpoint) (ep : Endpoint) (pack_size : Z) :
  bEndpointAddress ep = EP_IN ->
  (forall ep', In ep' post -> bEndpointAddress ep' <> EP_IN) ->
  fold_left (fun size ep => if is_inbound ep then wMaxPacketSize ep else size)
    (pre ++ ep :: post) pack_size = wMaxPacketSize ep.
Proof.
  intros Hep Hpost. rewrite fold_left_app. cbn [fold_left].
  unfold is_inbound at 2. rewrite Hep, Z.eqb_refl.
  now apply inbound_absent.
Qed.

Lemma endpoint_config_run w d (cfg : Configuration) (intf : Interface) :
  backend_get_active_configuration (dev w) = (d, Ok cfg) ->
  cfg_getitem cfg (INTERFACE, 0) = Ok intf ->
  endpoint_config w =
    (mkWorld d (calls w ++ [CallGetActiveConfiguration])
       (stdout w ++ descriptor_output (endpoints intf)),
     Ok (fold_left (fun size ep =>
                      if is_inbound ep then wMaxPacketSize ep else size)
           (endpoints intf) 0)).
Proof.
  intros Hcfg Hintf. unfold endpoint_config, dev_get_active_configuration.
  unfold Py.bind at 1, Py.invoke. rewrite Hcfg.
  unfold Py.bind. rewrite Hintf. now rewrite endpoint_loop_run.
Qed.

(** C6. When the inbound endpoint (address 0x81; the last one listed with
    that address) has a positive max packet size, [endpoint_config] returns
    that size, and the fifth default vector is then that many bytes less
    one, all of them the byte A; echoed unchanged, the vector is reported
    as matched (PING and PONG entries, no mismatch entry). *)
Theorem boundary_vector w d (cfg : Configuration) (intf : Interface)
    (pre post : list Endpoint) (ep : Endpoint) :
  backend_get_active_configuration (dev w) = (d, Ok cfg) ->
  cfg_getitem cfg (INTERFACE, 0) = Ok intf ->
  endpoints intf = pre ++ ep :: post ->
  bEndpointAddress ep = EP_IN ->
  (forall ep', In ep' post -> bEndpointAddress ep' <> EP_IN) ->
  1 <= wMaxPacketSize ep ->
  let maxTransferUnit := wMaxPacketSize ep in
  exists w' boundary,
    endpoint_config w = (w', Ok maxTransferUnit) /\
    nth_error (tests maxTransferUnit) 4
      = Some ("pkt_size-1 bytes", boundary) /\
    len boundary = maxTransferUnit - 1 /\
    Forall (eq "A"%byte) boundary /\
    (forall w0 d1 d2,
        backend_write (dev w0) EP_OUT boundary INTERFACE
          = (d1, Ok (len boundary)) ->
        backend_read d1 EP_IN maxTransferUnit INTERFACE = (d2, Ok boundary) ->
        test_loop maxTransferUnit [("pkt_size-1 bytes", boundary)] w0 =
          (mkWorld d2
             (calls w0 ++ [CallWrite EP_OUT boundary INTERFACE;
                           CallRead EP_IN maxTransferUnit INTERFACE])
             (stdout w0 ++ [OutPing boundary; OutPong boundary]),
           Ok tt)).
Proof.
  intros Hcfg Hintf Heps Hep Hpost Hpos mtu.
  eexists. exists (bytes_mul (b_ "A") (mtu - 1)).
  split; [|split; [reflexivity|split; [|split]]].
  - rewrite (endpoint_config_run _ _ _ _ Hcfg Hintf), Heps.
    now rewrite (inbound_last _ _ _ _ Hep Hpost).
  - rewrite bytes_mul_length. cbn. lia.
  - apply bytes_mul_all.
  - intros w0 d1 d2 Hw Hr.
    rewrite (test_loop_step _ _ _ _ _ _ _
               (send_and_receive_ok _ _ _ _ _ _ Hw Hr)).
    now rewrite bytes_eqb_refl.
Qed.

(** ** Which calls each part of the script can make *)

Lemma logs_only_ret (P : call -> bool) {A} (a : A) :
  logs_only P (Py.ret (D:=D) a).
Proof.
  intros w w' r E. inversion E; subst. exists []. now rewrite app_nil_r.
Qed.

Lemma logs_only_pure (P : call -> bool) {A} (r0 : result A) :
  logs_only P (fun w : World D => (w, r0)).
Proof.
  intros w w' r E. inversion E; subst. exists []. now rewrite app_nil_r.
Qed.

Lemma logs_only_print (P : call -> bool) (o : output) :
  logs_only P (Py.print (D:=D) o).
Proof.
  intros w w' r E. inversion E; subst. exists []. cbn. now rewrite app_nil_r.
Qed.

Lemma logs_only_invoke (P : call -> bool) {A} (c : call)
    (op : D -> D * result A) :
  P c = true -> logs_only P (Py.invoke c op).
Proof.
  intros Hc w w' r E. unfold Py.invoke in E.
  destruct (op (dev w)) as [d r']. inversion E; subst.
  exists [c]. cbn. now rewrite Hc.
Qed.

Lemma logs_only_bind (P : call -> bool) {A B} (m : Py.M D A)
    (k : A -> Py.M D B) :
  logs_only P m -> (forall a, logs_only P (k a)) -> logs_only P (Py.bind m k).
Proof.
  intros Hm Hk w w' r E. unfold Py.bind in E.
  destruct (m w) as [w1 [a|e]] eqn:Em.
  - destruct (Hm _ _ _ Em) as (l1 & C1 & F1).
    destruct (Hk a _ _ _ E) as (l2 & C2 & F2).
    exists (l1 ++ l2). rewrite C2, C1, <- app_assoc, forallb_app, F1, F2. auto.
  - inversion E; subst. exact (Hm _ _ _ Em).
Qed.

Lemma logs_only_try (P : call -> bool) {A} (body handler : Py.M D A)
    (classes : list exn_class) :
  logs_only P body -> logs_only P handler ->
  logs_only P (Py.try_except body classes handler).
Proof.
  intros Hb Hh w w' r E. unfold Py.try_except in E.
  destruct (body w) as [w1 [a|e]] eqn:Eb.
  - inversion E; subst. exact (Hb _ _ _ Eb).
  - destruct (existsb (isinstance e) classes).
    + destruct (Hb _ _ _ Eb) as (l1 & C1 & F1).
      destruct (Hh _ _ _ E) as (l2 & C2 & F2).
      exists (l1 ++ l2). rewrite C2, C1, <- app_assoc, forallb_app, F1, F2. auto.
    + inversion E; subst. exact (Hb _ _ _ Eb).
Qed.

Create HintDb logs.
#[local] Hint Resolve logs_only_ret logs_only_pure logs_only_print
  logs_only_invoke logs_only_bind logs_only_try : logs.

Lemma find_never_releases : logs_only not_release (usb_core_find VID PID).
Proof. unfold usb_core_find. auto with logs. Qed.

Lemma prepare_device_never_releases : logs_only not_release prepare_device.
Proof.
  unfold prepare_device, dev_is_kernel_driver_active,
    dev_detach_kernel_driver, usb_util_claim_interface.
  apply logs_only_bind; [apply logs_only_try|]; auto with logs.
  apply logs_only_bind; [auto with logs|].
  intros [|]; auto with logs.
Qed.

Lemma endpoint_config_never_releases : logs_only not_release endpoint_config.
Proof.
  intros w w' r E.
  unfold endpoint_config, dev_get_active_configuration in E.
  unfold Py.bind at 1, Py.invoke in E.
  destruct (backend_get_active_configuration (dev w)) as [d [cfg|e]].
  - unfold Py.bind in E.
    destruct (cfg_getitem cfg (INTERFACE, 0)) as [intf|e].
    + rewrite endpoint_loop_run in E. inversion E; subst.
      exists [CallGetActiveConfiguration]. auto.
    + inversion E; subst. exists [CallGetActiveConfiguration]. auto.
  - inversion E; subst. exists [CallGetActiveConfiguration]. auto.
Qed.

Lemma send_and_receive_never_releases (payload : bytes) (pkt_size : Z) :
  logs_only not_release (send_and_receive payload pkt_size).
Proof.
  unfold send_and_receive, dev_write, dev_read.
  repeat (apply logs_only_bind; [auto with logs|intros]).
  - destruct (negb _); [unfold Py.raise|]; auto with logs.
  - auto with logs.
Qed.

Lemma test_loop_never_releases (pkt_size : Z) (vectors : list (string * bytes)) :
  logs_only not_release (test_loop pkt_size vectors).
Proof.
  induction vectors as [|[name data] vectors IH]; cbn [test_loop].
  - auto with logs.
  - apply logs_only_bind; [apply send_and_receive_never_releases|intros].
    apply logs_only_bind; [|intros; exact IH].
    destruct (negb _); auto with logs.
Qed.

Lemma still_unreleased (l0 l : list call) :
  existsb is_release l0 = false ->
  forallb not_release l = true ->
  existsb is_release (l0 ++ l) = false.
Proof.
  intros H0 Hl. rewrite existsb_app, H0. cbn.
  induction l as [|c l IH]; [reflexivity|].
  cbn in Hl |- *. apply andb_true_iff in Hl as [Hc Hl].
  unfold not_release in Hc. apply negb_true_iff in Hc. rewrite Hc. auto.
Qed.

Lemma unreleased_at_loop w w0 (pkt_size : Z) :
  reaches_loop w w0 pkt_size ->
  existsb is_release (calls w) = false ->
  existsb is_release (calls w0) = false.
Proof.
  intros (w1 & w2 & Hfind & Hprep & Hcfg) Hw.
  destruct (find_never_releases _ _ _ Hfind) as (l1 & C1 & F1).
  destruct (prepare_device_never_releases _ _ _ Hprep) as (l2 & C2 & F2).
  destruct (endpoint_config_never_releases _ _ _ Hcfg) as (l3 & C3 & F3).
  rewrite C3, C2, C1. auto using still_unreleased.
Qed.

Lemma release_interface_run w d (r : result unit) :
  backend_release_interface (dev w) INTERFACE = (d, r) ->
  usb_util_release_interface INTERFACE w =
    (mkWorld d (calls w ++ [CallReleaseInterface INTERFACE]) (stdout w), r).
Proof. intros E. run_script. now rewrite E. Qed.

(** ** Release and exit status *)

(** C4, as the code has it.  [main] releases the interface only when its
    loop ran to the end: then the release is the one call that follows the
    loop, and [main] ends as the release does.  When the loop raises, [main]
    raises the same exception in the world the loop left, in which no
    release was ever called. *)
Theorem release_follows_completed_loop w w0 (pkt_size : Z) :
  reaches_loop w w0 pkt_size ->
  existsb is_release (calls w) = false ->
  (forall w1,
      test_loop pkt_size (tests pkt_size) w0 = (w1, Ok tt) ->
      existsb is_release (calls w1) = false /\
      exists d r,
        backend_release_interface (dev w1) INTERFACE = (d, r) /\
        main w =
          (mkWorld d (calls w1 ++ [CallReleaseInterface INTERFACE]) (stdout w1),
           r)) /\
  (forall w1 e,
      test_loop pkt_size (tests pkt_size) w0 = (w1, Raise e) ->
      main w = (w1, Raise e) /\
      existsb is_release (calls w1) = false).
Proof.
  intros Hreach Hw.
  pose proof (unreleased_at_loop _ _ _ Hreach Hw) as Hw0.
  split.
  - intros w1 E.
    destruct (test_loop_never_releases _ _ _ _ _ E) as (l & C & F).
    split; [rewrite C; now apply still_unreleased|].
    destruct (backend_release_interface (dev w1) INTERFACE) as [d r] eqn:Hr.
    exists d, r. split; [reflexivity|].
    rewrite (main_loop_done _ _ _ _ Hreach E).
    now apply release_interface_run.
  - intros w1 e E.
    destruct (test_loop_never_releases _ _ _ _ _ E) as (l & C & F).
    split; [now apply main_loop_raises with w0 pkt_size|].
    rewrite C. now apply still_unreleased.
Qed.

(** C7, as the code has it.  The process exits with status 0 when the loop
    ran to the end (mismatches or not) and the release that follows it
    returned; it exits with status 1, having printed the not-found line and
    made no other call, when [usb.core.find] returned [None]. *)
Theorem exit_status_of_run :
  (forall w w0 (pkt_size : Z) w1 d,
      reaches_loop w w0 pkt_size ->
      test_loop pkt_size (tests pkt_size) w0 = (w1, Ok tt) ->
      backend_release_interface (dev w1) INTERFACE = (d, Ok tt) ->
      run w =
        (mkWorld d (calls w1 ++ [CallReleaseInterface INTERFACE]) (stdout w1),
         0)) /\
  (forall w d,
      backend_find (dev w) VID PID = (d, Ok false) ->
      run w =
        (mkWorld d (calls w ++ [CallFind VID PID]) (stdout w ++ [OutNotFound]),
         1)).
Proof.
  split.
  - intros w w0 pkt_size w1 d Hreach E Hr.
    apply (run_of_main w _ (Ok tt)).
    rewrite (main_loop_done _ _ _ _ Hreach E).
    now apply release_interface_run.
  - intros w d Hf.
    assert (E : main w =
                (mkWorld d (calls w ++ [CallFind VID PID])
                   (stdout w ++ [OutNotFound]),
                 Raise (mkExn SystemExit (IntArg 1)))).
    { run_script. rewrite Hf. reflexivity. }
    now rewrite (run_of_main _ _ _ E).
Qed.

End Properties.

(** * The properties on the simulated peer *)

Example default_vector_lengths :
  map (fun v => len (snd v)) (tests 64) = [10; 10; 5; 7; 63].
Proof. by_eval. Qed.

Example negative_repeat_is_empty : bytes_mul (b_ "A") (-1) = [].
Proof. reflexivity. Qed.

Example faithful_peer_run :
  snd (run (Sim.boot Sim.pong)) = 0 /\
  filter is_claim (calls (fst (run (Sim.boot Sim.pong))))
    = [CallClaimInterface INTERFACE] /\
  filter is_release (calls (fst (run (Sim.boot Sim.pong))))
    = [CallReleaseInterface INTERFACE] /\
  skipn 8 (stdout (fst (run (Sim.boot Sim.pong)))) = matched_output (tests 64).
Proof. repeat split; by_eval. Qed.

Example absent_device_run :
  snd (run (Sim.boot Sim.absent)) = 1 /\
  calls (fst (run (Sim.boot Sim.absent))) = [CallFind VID PID] /\
  stdout (fst (run (Sim.boot Sim.absent))) = [OutNotFound].
Proof. repeat split; by_eval. Qed.

Lemma pong_echoes : lossless_echo (Sim.runs Sim.pong) 64 (tests 64).
Proof.
  intros d name payload Hd Hin. unfold Sim.runs in Hd.
  exists (Sim.mkState (Sim.fw d) (S (Sim.writes d)) (Sim.reads d) payload).
  exists (Sim.mkState (Sim.fw d) (S (Sim.writes d)) (S (Sim.reads d)) payload).
  cbn [backend_write backend_read Sim.backend Sim.fw Sim.writes Sim.reads
       Sim.last_written]. rewrite Hd.
  split; [reflexivity|]. split; [|reflexivity].
  f_equal. f_equal. cbn [Sim.pong Sim.fw_read].
  cbn in Hin.
  repeat (destruct Hin as [Hin|Hin];
          [injection Hin as _ <-; reflexivity|]).
  contradiction.
Qed.

Lemma echo_all_matched_witness :
  Sim.runs Sim.pong (dev Sim.pong_loop) /\
  lossless_echo (Sim.runs Sim.pong) 64 (tests 64) /\
  exists w',
    test_loop 64 (tests 64) Sim.pong_loop = (w', Ok tt) /\
    stdout w' = stdout Sim.pong_loop ++ matched_output (tests 64) /\
    calls w' = calls Sim.pong_loop ++ exchange_calls 64 (tests 64) /\
    Sim.runs Sim.pong (dev w').
Proof.
  assert (Hinv : Sim.runs Sim.pong (dev Sim.pong_loop)) by by_eval.
  split; [exact Hinv|]. split; [exact pong_echoes|].
  exact (echo_all_matched (Sim.runs Sim.pong) 64 (tests 64) Sim.pong_loop
           Hinv pong_echoes).
Defined.

Lemma short_write_aborts_witness :
  let payload := b_ "1234567890" in
  test_loop 64 (firstn 1 (tests 64)) Sim.short_loop = (Sim.short_w1, Ok tt) /\
  backend_write (dev Sim.short_w1) EP_OUT payload INTERFACE
    = (Sim.short_d1, Ok 9) /\
  9 <> len payload /\
  test_loop 64 (firstn 1 (tests 64) ++ ("Digits", payload) :: skipn 2 (tests 64))
    Sim.short_loop =
    (mkWorld Sim.short_d1
       (calls Sim.short_w1 ++ [CallWrite EP_OUT payload INTERFACE])
       (stdout Sim.short_w1 ++ [OutPing payload]),
     Raise (mkExn RuntimeError (StrArg (short_write_message 9 payload)))) /\
  short_write_message 9 payload = "Sent 9 bytes, expected 10 bytes.".
Proof.
  cbv zeta.
  assert (H1 : test_loop 64 (firstn 1 (tests 64)) Sim.short_loop
               = (Sim.short_w1, Ok tt)) by by_eval.
  assert (H2 : backend_write (dev Sim.short_w1) EP_OUT (b_ "1234567890")
                 INTERFACE = (Sim.short_d1, Ok 9)) by by_eval.
  assert (Hn : 9 <> len (b_ "1234567890")) by (vm_compute; discriminate).
  split; [exact H1|]. split; [exact H2|]. split; [exact Hn|].
  split; [|by_eval].
  exact (short_write_aborts 64 (firstn 1 (tests 64)) (skipn 2 (tests 64))
           "Digits" (b_ "1234567890") Sim.short_loop Sim.short_w1
           Sim.short_d1 9 H1 H2 Hn).
Defined.

Lemma read_fault_aborts_run_witness :
  let w_start := Sim.boot (Sim.stall_at 2) in
  let pre := firstn 2 (tests 64) in
  let post := skipn 3 (tests 64) in
  let payload := [x00; x01; x02; x03; x04] in
  let w_fault :=
    mkWorld Sim.stall_d2
      (calls Sim.stall_w1 ++ [CallWrite EP_OUT payload INTERFACE;
                              CallRead EP_IN 64 INTERFACE])
      (stdout Sim.stall_w1 ++ [OutPing payload]) in
  test_loop 64 pre Sim.stall_loop = (Sim.stall_w1, Ok tt) /\
  backend_write (dev Sim.stall_w1) EP_OUT payload INTERFACE
    = (Sim.stall_d1, Ok (len payload)) /\
  backend_read Sim.stall_d1 EP_IN 64 INTERFACE
    = (Sim.stall_d2, Raise Sim.usb_error) /\
  reaches_loop w_start Sim.stall_loop 64 /\
  tests 64 = pre ++ ("Binary", payload) :: post /\
  test_loop 64 (pre ++ ("Binary", payload) :: post) Sim.stall_loop
    = (w_fault, Raise Sim.usb_error) /\
  main w_start = (w_fault, Raise Sim.usb_error) /\
  run w_start = (w_fault, exit_status (Raise Sim.usb_error)) /\
  exit_status (Raise Sim.usb_error) = 1.
Proof.
  cbv zeta.
  assert (H1 : test_loop 64 (firstn 2 (tests 64)) Sim.stall_loop
               = (Sim.stall_w1, Ok tt)) by by_eval.
  assert (H2 : backend_write (dev Sim.stall_w1) EP_OUT [x00; x01; x02; x03; x04]
                 INTERFACE
               = (Sim.stall_d1, Ok (len [x00; x01; x02; x03; x04]))) by by_eval.
  assert (H3 : backend_read Sim.stall_d1 EP_IN 64 INTERFACE
               = (Sim.stall_d2, Raise Sim.usb_error)) by by_eval.
  assert (Hreach : reaches_loop (Sim.boot (Sim.stall_at 2)) Sim.stall_loop 64)
    by enters_loop (Sim.stall_at 2).
  assert (Htests : tests 64 = firstn 2 (tests 64)
                     ++ ("Binary", [x00; x01; x02; x03; x04])
                     :: skipn 3 (tests 64)) by by_eval.
  destruct (read_fault_aborts_run 64 (firstn 2 (tests 64))
              (skipn 3 (tests 64)) "Binary" [x00; x01; x02; x03; x04]
              Sim.stall_loop Sim.stall_w1 Sim.stall_d1 Sim.stall_d2
              Sim.usb_error H1 H2 H3) as [Hloop Hmain].
  destruct (Hmain _ Hreach Htests) as [Hm Hrun].
  split; [exact H1|]. split; [exact H2|]. split; [exact H3|].
  split; [exact Hreach|]. split; [exact Htests|]. split; [exact Hloop|].
  split; [exact Hm|]. split; [exact Hrun|]. by_eval.
Defined.

Lemma mismatch_reported_not_fatal_witness :
  let w := Sim.lossy_loop in
  let payload := b_ "Hello USB!" in
  let received := b_ "ello USB!" in
  let rest := skipn 1 (tests 64) in
  backend_write (dev w) EP_OUT payload INTERFACE
    = (Sim.lossy_d1, Ok (len payload)) /\
  backend_read Sim.lossy_d1 EP_IN 64 INTERFACE = (Sim.lossy_d2, Ok received) /\
  received <> payload /\
  test_loop 64 (("Text", payload) :: rest) w =
    test_loop 64 rest
      (mkWorld Sim.lossy_d2
         (calls w ++ [CallWrite EP_OUT payload INTERFACE;
                      CallRead EP_IN 64 INTERFACE])
         (stdout w ++ [OutPing payload; OutPong received; OutMismatch "Text"])).
Proof.
  cbv zeta.
  assert (H1 : backend_write (dev Sim.lossy_loop) EP_OUT (b_ "Hello USB!")
                 INTERFACE = (Sim.lossy_d1, Ok (len (b_ "Hello USB!"))))
    by by_eval.
  assert (H2 : backend_read Sim.lossy_d1 EP_IN 64 INTERFACE
               = (Sim.lossy_d2, Ok (b_ "ello USB!"))) by by_eval.
  assert (Hneq : b_ "ello USB!" <> b_ "Hello USB!")
    by (vm_compute; discriminate).
  split; [exact H1|]. split; [exact H2|]. split; [exact Hneq|].
  exact (mismatch_reported_not_fatal 64 "Text" (b_ "Hello USB!")
           (b_ "ello USB!") (skipn 1 (tests 64)) Sim.lossy_loop
           Sim.lossy_d1 Sim.lossy_d2 H1 H2 Hneq).
Defined.

(** C4 fails as stated: the read of the third vector stalls, the loop and
    [main] raise, and the interface, claimed during the setup, is never
    released. *)
Lemma release_skipped_after_fault :
  test_loop 64 (tests 64) Sim.stall_loop = (Sim.stall_end, Raise Sim.usb_error) /\
  main (Sim.boot (Sim.stall_at 2)) = (Sim.stall_end, Raise Sim.usb_error) /\
  existsb is_claim (calls Sim.stall_end) = true /\
  existsb is_release (calls Sim.stall_end) = false.
Proof. repeat split; by_eval. Qed.

Lemma release_follows_completed_loop_witness :
  reaches_loop (Sim.boot (Sim.stall_at 2)) Sim.stall_loop 64 /\
  existsb is_release (calls (Sim.boot (Sim.stall_at 2))) = false /\
  test_loop 64 (tests 64) Sim.stall_loop = (Sim.stall_end, Raise Sim.usb_error) /\
  main (Sim.boot (Sim.stall_at 2)) = (Sim.stall_end, Raise Sim.usb_error) /\
  existsb is_release (calls Sim.stall_end) = false.
Proof.
  assert (Hreach : reaches_loop (Sim.boot (Sim.stall_at 2)) Sim.stall_loop 64)
    by enters_loop (Sim.stall_at 2).
  assert (Hw : existsb is_release (calls (Sim.boot (Sim.stall_at 2))) = false)
    by by_eval.
  assert (Hloop : test_loop 64 (tests 64) Sim.stall_loop
                  = (Sim.stall_end, Raise Sim.usb_error)) by by_eval.
  destruct (release_follows_completed_loop _ _ _ Hreach Hw) as [_ Hraise].
  destruct (Hraise _ _ Hloop) as [Hmain Hnone].
  split; [exact Hreach|]. split; [exact Hw|]. split; [exact Hloop|].
  split; [exact Hmain|exact Hnone].
Defined.

Lemma boundary_vector_witness :
  let intf := mkInterface 0 [Sim.bulk_in 64; Sim.bulk_out 64] in
  backend_get_active_configuration (dev Sim.pong_prepared)
    = (dev Sim.pong_prepared, Ok Sim.pong_config) /\
  cfg_getitem Sim.pong_config (INTERFACE, 0) = Ok intf /\
  endpoints intf = [] ++ Sim.bulk_in 64 :: [Sim.bulk_out 64] /\
  bEndpointAddress (Sim.bulk_in 64) = EP_IN /\
  (forall ep', In ep' [Sim.bulk_out 64] -> bEndpointAddress ep' <> EP_IN) /\
  1 <= wMaxPacketSize (Sim.bulk_in 64) /\
  exists w' boundary,
    endpoint_config Sim.pong_prepared = (w', Ok 64) /\
    nth_error (tests 64) 4 = Some ("pkt_size-1 bytes", boundary) /\
    len boundary = 63 /\
    Forall (eq "A"%byte) boundary.
Proof.
  cbv zeta.
  assert (H1 : backend_get_active_configuration (dev Sim.pong_prepared)
               = (dev Sim.pong_prepared, Ok Sim.pong_config)) by by_eval.
  assert (H2 : cfg_getitem Sim.pong_config (INTERFACE, 0)
               = Ok (mkInterface 0 [Sim.bulk_in 64; Sim.bulk_out 64]))
    by by_eval.
  assert (H3 : endpoints (mkInterface 0 [Sim.bulk_in 64; Sim.bulk_out 64])
               = [] ++ Sim.bulk_in 64 :: [Sim.bulk_out 64]) by reflexivity.
  assert (H4 : bEndpointAddress (Sim.bulk_in 64) = EP_IN) by reflexivity.
  assert (H5 : forall ep', In ep' [Sim.bulk_out 64] ->
                           bEndpointAddress ep' <> EP_IN).
  { intros ep' [<-|[]]. vm_compute. discriminate. }
  assert (H6 : 1 <= wMaxPacketSize (Sim.bulk_in 64)) by (cbn; lia).
  destruct (boundary_vector Sim.pong_prepared _ _ _ _ _ _ H1 H2 H3 H4 H5 H6)
    as (w' & boundary & Hcfg & Hnth & Hlen & Hall & _).
  repeat (split; [assumption|]).
  exists w', boundary. auto.
Defined.

(** C7 fails as stated: every exchange is through and matched, but the
    release that follows the loop raises, so [exit(0)] is never reached and
    the interpreter ends with status 1. *)
Lemma exit_nonzero_after_completed_loop :
  reaches_loop (Sim.boot Sim.unplugged) Sim.unplugged_loop 64 /\
  test_loop 64 (tests 64) Sim.unplugged_loop = (Sim.unplugged_done, Ok tt) /\
  snd (main (Sim.boot Sim.unplugged)) = Raise Sim.usb_error /\
  snd (run (Sim.boot Sim.unplugged)) = 1.
Proof.
  split; [enters_loop Sim.unplugged|]. repeat split; by_eval.
Qed.

Lemma exit_status_of_run_witness :
  (reaches_loop (Sim.boot (Sim.lossy_at 0)) Sim.lossy_loop 64 /\
   test_loop 64 (tests 64) Sim.lossy_loop = (Sim.lossy_done, Ok tt) /\
   In (OutMismatch "Text") (stdout Sim.lossy_done) /\
   backend_release_interface (dev Sim.lossy_done) INTERFACE
     = (Sim.lossy_released, Ok tt) /\
   run (Sim.boot (Sim.lossy_at 0)) =
     (mkWorld Sim.lossy_released
        (calls Sim.lossy_done ++ [CallReleaseInterface INTERFACE])
        (stdout Sim.lossy_done), 0)) /\
  (backend_find (dev (Sim.boot Sim.absent)) VID PID
     = (dev (Sim.boot Sim.absent), Ok false) /\
   run (Sim.boot Sim.absent) =
     (mkWorld (dev (Sim.boot Sim.absent))
        (calls (Sim.boot Sim.absent) ++ [CallFind VID PID])
        (stdout (Sim.boot Sim.absent) ++ [OutNotFound]), 1)).
Proof.
  assert (Hreach : reaches_loop (Sim.boot (Sim.lossy_at 0)) Sim.lossy_loop 64)
    by enters_loop (Sim.lossy_at 0).
  assert (Hloop : test_loop 64 (tests 64) Sim.lossy_loop
                  = (Sim.lossy_done, Ok tt)) by by_eval.
  assert (Hmis : In (OutMismatch "Text") (stdout Sim.lossy_done)).
  { vm_compute. tauto. }
  assert (Hrel : backend_release_interface (dev Sim.lossy_done) INTERFACE
                 = (Sim.lossy_released, Ok tt)) by by_eval.
  assert (Hfind : backend_find (dev (Sim.boot Sim.absent)) VID PID
                  = (dev (Sim.boot Sim.absent), Ok false)) by by_eval.
  destruct exit_status_of_run as [Hzero Hone].
  split.
  - repeat (split; [assumption|]).
    exact (Hzero _ _ _ _ _ Hreach Hloop Hrel).
  - split; [exact Hfind|]. exact (Hone _ _ Hfind).
Defined.

Lemma detach_tolerance_witness :
  (detach_fault Sim.busy_found Sim.busy_detach_failed Sim.usb_error /\
   tolerated Sim.usb_error = true /\
   prepare_device Sim.busy_found
     = usb_util_claim_interface INTERFACE Sim.busy_detach_failed) /\
  (detach_fault Sim.jammed_found Sim.jammed_detach_failed Sim.type_error /\
   tolerated Sim.type_error = false /\
   prepare_device Sim.jammed_found
     = (Sim.jammed_detach_failed, Raise Sim.type_error)) /\
  (detach_passed Sim.taken_found Sim.taken_detached /\
   backend_claim_interface (dev Sim.taken_detached) INTERFACE
     = (dev Sim.taken_detached, Raise Sim.usb_error) /\
   prepare_device Sim.taken_found =
     (mkWorld (dev Sim.taken_detached)
        (calls Sim.taken_detached ++ [CallClaimInterface INTERFACE])
        (stdout Sim.taken_detached),
      Raise Sim.usb_error)).
Proof.
  destruct (detach_tolerance (D:=Sim.state)) as [Hfault Hclaim].
  assert (F1 : detach_fault Sim.busy_found Sim.busy_detach_failed Sim.usb_error).
  { exact (fault_in_detach Sim.busy_found (dev Sim.busy_found)
             (dev Sim.busy_found) Sim.usb_error eq_refl eq_refl). }
  assert (T1 : tolerated Sim.usb_error = true) by reflexivity.
  assert (F2 : detach_fault Sim.jammed_found Sim.jammed_detach_failed
                 Sim.type_error).
  { exact (fault_in_detach Sim.jammed_found (dev Sim.jammed_found)
             (dev Sim.jammed_found) Sim.type_error eq_refl eq_refl). }
  assert (T2 : tolerated Sim.type_error = false) by reflexivity.
  assert (P3 : detach_passed Sim.taken_found Sim.taken_detached).
  { exact (passed_detached Sim.taken_found (dev Sim.taken_found)
             (dev Sim.taken_found) eq_refl eq_refl). }
  assert (C3 : backend_claim_interface (dev Sim.taken_detached) INTERFACE
               = (dev Sim.taken_detached, Raise Sim.usb_error)) by by_eval.
  split; [|split].
  - split; [exact F1|]. split; [exact T1|].
    destruct (Hfault _ _ _ F1) as (_ & Hgo & _). exact (Hgo T1).
  - split; [exact F2|]. split; [exact T2|].
    destruct (Hfault _ _ _ F2) as (_ & _ & Hstop). exact (Hstop T2).
  - split; [exact P3|]. split; [exact C3|].
    exact (Hclaim _ _ _ _ P3 C3).
Defined.

Lemma prepare_device_claims_once_witness :
  prepare_device Sim.busy_found = (Sim.busy_prepared, Ok tt) /\
  exists l,
    calls Sim.busy_prepared
      = calls Sim.busy_found ++ l ++ [CallClaimInterface INTERFACE] /\
    forallb is_detach_step l = true /\
    filter is_claim (l ++ [CallClaimInterface INTERFACE])
      = [CallClaimInterface INTERFACE] /\
    stdout Sim.busy_prepared = stdout Sim.busy_found.
Proof.
  assert (E : prepare_device Sim.busy_found = (Sim.busy_prepared, Ok tt))
    by by_eval.
  split; [exact E|].
  exact (prepare_device_claims_once Sim.busy_found Sim.busy_prepared E).
Defined.

(** C9 fails as stated: the interface has no endpoint 0x81, the setup goes
    through with packet size 0 and an empty fifth vector, but the first
    read is refused, [main] ends on that exception after one write and one
    read, and the empty payload is never written. *)
Lemma empty_payload_never_written :
  endpoint_config Sim.out_only_prepared = (Sim.out_only_loop, Ok 0) /\
  nth_error (tests 0) 4 = Some ("pkt_size-1 bytes", []) /\
  main (Sim.boot Sim.out_only) = (Sim.out_only_end, Raise Sim.value_error) /\
  calls Sim.out_only_end
    = calls Sim.out_only_loop
        ++ [CallWrite EP_OUT (b_ "Hello USB!") INTERFACE;
            CallRead EP_IN 0 INTERFACE] /\
  existsb is_empty_write (calls Sim.out_only_end) = false.
Proof. repeat split; by_eval. Qed.

(** * Further properties of the script *)

(** ** Initial parts of a list *)

Lemma prefix_of_nil {A} (full : list A) : prefix_of [] full.
Proof. exists 0%nat. reflexivity. Qed.

Lemma prefix_of_refl {A} (l : list A) : prefix_of l l.
Proof. exists (List.length l). now rewrite firstn_all. Qed.

Lemma prefix_of_app {A} (l0 l full : list A) :
  prefix_of l full -> prefix_of (l0 ++ l) (l0 ++ full).
Proof.
  intros [n ->]. exists (List.length l0 + n)%nat. now rewrite firstn_app_2.
Qed.

Lemma prefix_of_more {A} (l full more : list A) :
  prefix_of l full -> prefix_of l (full ++ more).
Proof.
  intros [n ->]. exists (Nat.min n (List.length full)).
  rewrite firstn_app.
  replace (Nat.min n (List.length full) - List.length full)%nat with 0%nat
    by lia.
  cbn. rewrite app_nil_r.
  destruct (Nat.le_ge_cases n (List.length full)) as [L|L].
  - now rewrite Nat.min_l.
  - rewrite Nat.min_r by exact L. now rewrite !firstn_all2 by lia.
Qed.

Lemma last_cons_default {A} (x d : A) (l : list A) :
  last (x :: l) d = last l x.
Proof.
  revert x d. induction l as [|y l IH]; intros x d; [reflexivity|].
  change (last (y :: l) d = last (y :: l) x). now rewrite !IH.
Qed.

Section Coverage.

Context {D : Type} `{UsbBackend D}.

Implicit Types (w : World D) (d : D) (e : exn).

(** ** One exchange, whatever the transport does *)

Lemma send_and_receive_cases (payload : bytes) (pkt_size : Z) w :
  (exists d r,
      send_and_receive payload pkt_size w =
        (mkWorld d
           (calls w ++ [CallWrite EP_OUT payload INTERFACE;
                        CallRead EP_IN pkt_size INTERFACE])
           (stdout w ++ [OutPing payload; OutPong r]), Ok r)) \/
  (exists d e,
      send_and_receive payload pkt_size w =
        (mkWorld d (calls w ++ [CallWrite EP_OUT payload INTERFACE])
           (stdout w ++ [OutPing payload]), Raise e)) \/
  (exists d e,
      send_and_receive payload pkt_size w =
        (mkWorld d
           (calls w ++ [CallWrite EP_OUT payload INTERFACE;
                        CallRead EP_IN pkt_size INTERFACE])
           (stdout w ++ [OutPing payload]), Raise e)).
Proof.
  destruct (backend_write (dev w) EP_OUT payload INTERFACE)
    as [d1 [n|e]] eqn:Hw.
  - destruct (Z.eq_dec n (len payload)) as [->|Hn].
    + destruct (backend_read d1 EP_IN pkt_size INTERFACE)
        as [d2 [r|e]] eqn:Hr.
      * left. exists d2, r. now apply send_and_receive_ok with d1.
      * right. right. exists d2, e.
        now apply send_and_receive_read_fault with d1.
    + right. left. eexists. eexists.
      exact (send_and_receive_short _ _ _ _ _ Hw Hn).
  - right. left. exists d1, e. now apply send_and_receive_write_fault.
Qed.

Lemma test_loop_calls (pkt_size : Z) (vectors : list (string * bytes)) w :
  exists l,
    calls (fst (test_loop pkt_size vectors w)) = calls w ++ l /\
    prefix_of l (exchange_calls pkt_size vectors) /\
    match snd (test_loop pkt_size vectors w) with
    | Ok _ => l = exchange_calls pkt_size vectors
    | Raise _ => l <> []
    end.
Proof.
  revert w. induction vectors as [|[name data] vectors IH]; intros w.
  - exists []. cbn. rewrite app_nil_r. auto using prefix_of_nil.
  - destruct (send_and_receive_cases data pkt_size w)
      as [(d & r & E) | [(d & e & E) | (d & e & E)]].
    + rewrite (test_loop_step _ _ _ _ _ _ _ E).
      match goal with |- context [test_loop _ _ ?w1] =>
        destruct (IH w1) as (l & Hc & Hp & Ho);
        assert (Hw1 : calls w1
                      = calls w ++ [CallWrite EP_OUT data INTERFACE;
                                    CallRead EP_IN pkt_size INTERFACE])
          by (destruct (bytes_eqb r data); reflexivity)
      end.
      exists ([CallWrite EP_OUT data INTERFACE;
               CallRead EP_IN pkt_size INTERFACE] ++ l).
      split; [now rewrite Hc, Hw1, <- app_assoc|].
      split; [exact (prefix_of_app _ _ _ Hp)|].
      destruct (snd (test_loop _ _ _)); [now rewrite Ho|discriminate].
    + rewrite (test_loop_abort _ _ _ _ _ _ _ E). cbn [fst snd calls].
      exists [CallWrite EP_OUT data INTERFACE].
      split; [reflexivity|]. split; [|discriminate].
      exists 1%nat. reflexivity.
    + rewrite (test_loop_abort _ _ _ _ _ _ _ E). cbn [fst snd calls].
      exists [CallWrite EP_OUT data INTERFACE;
              CallRead EP_IN pkt_size INTERFACE].
      split; [reflexivity|]. split; [|discriminate].
      exists 2%nat. reflexivity.
Qed.

(** X1. Whatever the transport answers, the calls the test loop makes are
    an initial part of: write of the first payload, read, write of the
    second payload, read, and so on.  Each payload is written as it stands
    in the vector list, in order; every read asks for [pkt_size] bytes and
    follows the write of its own vector; nothing else is called.  When the
    loop ends normally the sequence is complete; when it raises, at least
    the faulting call was made. *)
Theorem loop_calls_are_prefix (pkt_size : Z)
    (vectors : list (string * bytes)) w :
  exists l,
    calls (fst (test_loop pkt_size vectors w)) = calls w ++ l /\
    prefix_of l (exchange_calls pkt_size vectors) /\
    match snd (test_loop pkt_size vectors w) with
    | Ok _ => l = exchange_calls pkt_size vectors
    | Raise _ => l <> []
    end.
Proof. apply test_loop_calls. Qed.

Lemma send_and_receive_returns (payload : bytes) (pkt_size : Z) w w1
    (received : bytes) :
  send_and_receive payload pkt_size w = (w1, Ok received) ->
  exists d1 d2,
    backend_write (dev w) EP_OUT payload INTERFACE = (d1, Ok (len payload)) /\
    backend_read d1 EP_IN pkt_size INTERFACE = (d2, Ok received) /\
    w1 = mkWorld d2
           (calls w ++ [CallWrite EP_OUT payload INTERFACE;
                        CallRead EP_IN pkt_size INTERFACE])
           (stdout w ++ [OutPing payload; OutPong received]).
Proof.
  intros E.
  destruct (backend_write (dev w) EP_OUT payload INTERFACE)
    as [d1 [n|e]] eqn:Hw.
  - destruct (Z.eq_dec n (len payload)) as [->|Hn].
    + destruct (backend_read d1 EP_IN pkt_size INTERFACE)
        as [d2 [r|e]] eqn:Hr.
      * rewrite (send_and_receive_ok _ _ _ _ _ _ Hw Hr) in E.
        inversion E; subst. exists d1, d2. auto.
      * rewrite (send_and_receive_read_fault _ _ _ _ _ _ Hw Hr) in E.
        discriminate.
    + rewrite (send_and_receive_short _ _ _ _ _ Hw Hn) in E. discriminate.
  - rewrite (send_and_receive_write_fault _ _ _ _ _ Hw) in E. discriminate.
Qed.

(** X2. When the loop ends normally, the transport took every payload
    whole and answered every read; with [responses] the bytes those reads
    returned, in order, what was printed is, vector by vector in input
    order, the PING entry with the vector's payload, the PONG entry with
    the bytes read for it, and the mismatch entry naming the vector exactly
    when those bytes differ from the payload.  The calls made are one write
    and one read per vector. *)
Theorem completed_loop_report (pkt_size : Z)
    (vectors : list (string * bytes)) w w' :
  test_loop pkt_size vectors w = (w', Ok tt) ->
  exists responses,
    transport_replies pkt_size (dev w) vectors responses (dev w') /\
    List.length responses = List.length vectors /\
    stdout w' = stdout w ++ loop_report vectors responses /\
    calls w' = calls w ++ exchange_calls pkt_size vectors.
Proof.
  revert w. induction vectors as [|[name data] vectors IH]; intros w E.
  - exists []. cbn in E |- *. inversion E; subst.
    rewrite !app_nil_r. auto.
  - destruct (send_and_receive data pkt_size w) as [w1 [r|e]] eqn:S;
      [|rewrite (test_loop_abort _ _ _ _ _ _ _ S) in E; discriminate].
    rewrite (test_loop_step _ _ _ _ _ _ _ S) in E.
    destruct (send_and_receive_returns _ _ _ _ _ S)
      as (d1 & d2 & Hw & Hr & ->).
    destruct (IH _ E) as (responses & Hrep & Hlen & Hout & Hcalls).
    exists (r :: responses).
    split; [|split; [cbn; now rewrite Hlen|split]].
    + cbn [transport_replies snd]. exists d1, d2.
      split; [exact Hw|]. split; [exact Hr|].
      destruct (bytes_eqb r data); exact Hrep.
    + rewrite Hout. unfold loop_report, vector_report.
      cbn [combine flat_map fst snd].
      destruct (bytes_eqb r data); cbn [stdout app];
        now rewrite <- !app_assoc.
    + rewrite Hcalls. unfold exchange_calls. cbn [flat_map snd].
      destruct (bytes_eqb r data); cbn [calls app];
        now rewrite <- !app_assoc.
Qed.

(** X3. If the write of vector k itself raises (the vectors before it
    having been exchanged), the loop raises that exception at once: the
    faulting write is the last call made, no read is attempted for the
    vector, and only its PING entry is printed. *)
Theorem write_fault_aborts_run (pkt_size : Z) (pre post : list (string * bytes))
    (name : string) (payload : bytes) w w1 d1 e :
  test_loop pkt_size pre w = (w1, Ok tt) ->
  backend_write (dev w1) EP_OUT payload INTERFACE = (d1, Raise e) ->
  test_loop pkt_size (pre ++ (name, payload) :: post) w =
    (mkWorld d1 (calls w1 ++ [CallWrite EP_OUT payload INTERFACE])
       (stdout w1 ++ [OutPing payload]),
     Raise e).
Proof.
  intros Hpre Hw. rewrite (test_loop_after _ _ _ _ _ Hpre).
  apply test_loop_abort. now apply send_and_receive_write_fault.
Qed.

(** ** prepare_device, whatever the subsystem does *)

Lemma claim_calls w :
  calls (fst (usb_util_claim_interface INTERFACE w))
    = calls w ++ [CallClaimInterface INTERFACE] /\
  stdout (fst (usb_util_claim_interface INTERFACE w)) = stdout w.
Proof.
  destruct (backend_claim_interface (dev w) INTERFACE) as [d r] eqn:E.
  now rewrite (claim_interface_run _ _ _ E).
Qed.

(** How [prepare_device] ends, by what the query and the detach answer. *)
Lemma prepare_device_cases w :
  (exists w2, detach_passed w w2 /\
      prepare_device w = usb_util_claim_interface INTERFACE w2) \/
  (exists w1 e, detach_fault w w1 e /\ tolerated e = false /\
      prepare_device w = (w1, Raise e)).
Proof.
  destruct (backend_is_kernel_driver_active (dev w) INTERFACE)
    as [d1 [[|]|e]] eqn:Hq.
  - destruct (backend_detach_kernel_driver d1 INTERFACE)
      as [d2 [[]|e]] eqn:Hd.
    + left. eexists. split; [exact (passed_detached _ _ _ Hq Hd)|].
      now apply prepare_device_detached with d1.
    + pose proof (fault_in_detach _ _ _ _ Hq Hd) as F.
      pose proof (prepare_device_after_fault _ _ _ F) as E.
      destruct (tolerated e) eqn:T.
      * left. eexists. split; [exact (passed_tolerated _ _ _ F T)|exact E].
      * right. eexists. exists e. split; [exact F|]. split; [exact T|exact E].
  - left. eexists. split; [exact (passed_inactive _ _ Hq)|].
    now apply prepare_device_inactive.
  - pose proof (fault_in_query _ _ _ Hq) as F.
    pose proof (prepare_device_after_fault _ _ _ F) as E.
    destruct (tolerated e) eqn:T.
    + left. eexists. split; [exact (passed_tolerated _ _ _ F T)|exact E].
    + right. eexists. exists e. split; [exact F|]. split; [exact T|exact E].
Qed.

Lemma detach_fault_calls w w1 e :
  detach_fault w w1 e ->
  stdout w1 = stdout w /\
  exists detached : bool,
    calls w1 = calls w ++ CallIsKernelDriverActive INTERFACE
                 :: (if detached then [CallDetachKernelDriver INTERFACE]
                     else []) /\
    (detached = true <->
       exists d, backend_is_kernel_driver_active (dev w) INTERFACE
                 = (d, Ok true)).
Proof.
  intros [d e' Hq | d1 d2 e' Hq Hd]; (split; [reflexivity|]).
  - exists false. split; [reflexivity|].
    split; [discriminate|]. intros [d' Hq']. congruence.
  - exists true. split; [reflexivity|]. split; eauto.
Qed.

Lemma detach_passed_calls w w2 :
  detach_passed w w2 ->
  stdout w2 = stdout w /\
  exists detached : bool,
    calls w2 = calls w ++ CallIsKernelDriverActive INTERFACE
                 :: (if detached then [CallDetachKernelDriver INTERFACE]
                     else []) /\
    (detached = true <->
       exists d, backend_is_kernel_driver_active (dev w) INTERFACE
                 = (d, Ok true)).
Proof.
  intros [d Hq | d1 d2 Hq Hd | w' e F T].
  - split; [reflexivity|]. exists false. split; [reflexivity|].
    split; [discriminate|]. intros [d' Hq']. congruence.
  - split; [reflexivity|]. exists true. split; [reflexivity|]. split; eauto.
  - exact (detach_fault_calls _ _ _ F).
Qed.

Lemma prepare_device_calls w :
  stdout (fst (prepare_device w)) = stdout w /\
  exists (detached : bool) l,
    calls (fst (prepare_device w)) = calls w ++ l /\
    prefix_of l (prepare_log detached) /\
    (detached = true <->
       exists d, backend_is_kernel_driver_active (dev w) INTERFACE
                 = (d, Ok true)) /\
    match snd (prepare_device w) with
    | Ok _ => l = prepare_log detached
    | Raise _ => l <> []
    end.
Proof.
  destruct (prepare_device_cases w)
    as [(w2 & P & E) | (w1 & e & F & T & E)]; rewrite E.
  - destruct (detach_passed_calls _ _ P) as (Hout & detached & Hc & Hd).
    destruct (claim_calls w2) as [Cc Co].
    split; [now rewrite Co|].
    exists detached, (prepare_log detached).
    split; [rewrite Cc, Hc; destruct detached; cbn; now rewrite <- app_assoc|].
    split; [apply prefix_of_refl|]. split; [exact Hd|].
    destruct (snd _); [reflexivity|destruct detached; discriminate].
  - destruct (detach_fault_calls _ _ _ F) as (Hout & detached & Hc & Hd).
    cbn [fst snd]. split; [exact Hout|].
    exists detached. eexists. split; [exact Hc|].
    split; [|split; [exact Hd|discriminate]].
    destruct detached; [exists 2%nat|exists 1%nat]; reflexivity.
Qed.

(** X5. Whatever the subsystem answers, [prepare_device] prints nothing and
    begins with the driver query; it calls [detach_kernel_driver] exactly
    when the query returned true, and the only other call it can make is
    the claim, after these. *)
Theorem detach_only_when_active w :
  stdout (fst (prepare_device w)) = stdout w /\
  exists (detached : bool) l,
    calls (fst (prepare_device w)) = calls w ++ l /\
    prefix_of l (prepare_log detached) /\
    (detached = true <->
       exists d, backend_is_kernel_driver_active (dev w) INTERFACE
                 = (d, Ok true)) /\
    (In (CallDetachKernelDriver INTERFACE) l <-> detached = true) /\
    l <> [].
Proof.
  destruct (prepare_device_cases w)
    as [(w2 & P & E) | (w1 & e & F & T & E)]; rewrite E.
  - destruct (detach_passed_calls _ _ P) as (Hout & detached & Hc & Hd).
    destruct (claim_calls w2) as [Cc Co].
    split; [now rewrite Co|].
    exists detached, (prepare_log detached).
    split; [rewrite Cc, Hc; destruct detached; cbn; now rewrite <- app_assoc|].
    split; [apply prefix_of_refl|]. split; [exact Hd|].
    split; [|destruct detached; discriminate].
    destruct detached; cbn; intuition (try discriminate; try congruence).
  - destruct (detach_fault_calls _ _ _ F) as (Hout & detached & Hc & Hd).
    cbn [fst snd]. split; [exact Hout|].
    destruct F as [d e' Hq | d1 d2 e' Hq Hd'].
    + exists false, [CallIsKernelDriverActive INTERFACE].
      split; [reflexivity|]. split; [exists 1%nat; reflexivity|].
      split; [|split; [|discriminate]].
      * split; [discriminate|]. intros [d' Hq']. congruence.
      * cbn. intuition (try discriminate; try congruence).
    + exists true, [CallIsKernelDriverActive INTERFACE;
                    CallDetachKernelDriver INTERFACE].
      split; [reflexivity|]. split; [exists 2%nat; reflexivity|].
      split; [split; eauto|]. split; [|discriminate].
      cbn. intuition.
Qed.

(** ** endpoint_config, whatever the descriptors are *)

Lemma endpoint_config_cases w :
  (exists d (cfg : Configuration) (intf : Interface),
      backend_get_active_configuration (dev w) = (d, Ok cfg) /\
      cfg_getitem cfg (INTERFACE, 0) = Ok intf /\
      endpoint_config w =
        (mkWorld d (calls w ++ [CallGetActiveConfiguration])
           (stdout w ++ descriptor_output (endpoints intf)),
         Ok (fold_left (fun size ep =>
                          if is_inbound ep then wMaxPacketSize ep else size)
               (endpoints intf) 0))) \/
  (exists d e,
      endpoint_config w =
        (mkWorld d (calls w ++ [CallGetActiveConfiguration]) (stdout w),
         Raise e)).
Proof.
  destruct (backend_get_active_configuration (dev w)) as [d [cfg|e]] eqn:Hc.
  - destruct (cfg_getitem cfg (INTERFACE, 0)) as [intf|e] eqn:Hi.
    + left. exists d, cfg, intf. split; [reflexivity|]. split; [exact Hi|].
      now apply endpoint_config_run with cfg.
    + right. exists d, e. unfold endpoint_config, dev_get_active_configuration.
      unfold Py.bind at 1, Py.invoke. rewrite Hc. unfold Py.bind.
      now rewrite Hi.
  - right. exists d, e. unfold endpoint_config, dev_get_active_configuration.
    unfold Py.bind at 1, Py.invoke. now rewrite Hc.
Qed.

Lemma inbound_closed_form (eps : list Endpoint) (pack_size : Z) :
  fold_left (fun size ep => if is_inbound ep then wMaxPacketSize ep else size)
    eps pack_size
  = last (map wMaxPacketSize (filter is_inbound eps)) pack_size.
Proof.
  revert pack_size. induction eps as [|ep eps IH]; intros pack_size.
  - reflexivity.
  - cbn [fold_left filter]. rewrite IH.
    destruct (is_inbound ep); [|reflexivity].
    cbn [map]. now rewrite last_cons_default.
Qed.

(** X7. Once the configuration and its interface (0, 0) are read,
    [endpoint_config] cannot raise: it prints the four lines of every
    endpoint, in descriptor order and whatever the address, and returns
    the max packet size of the last endpoint listed with address 0x81, or
    0 when there is none.  Endpoints with another address never change the
    result. *)
Theorem endpoint_config_closed_form w d (cfg : Configuration)
    (intf : Interface) :
  backend_get_active_configuration (dev w) = (d, Ok cfg) ->
  cfg_getitem cfg (INTERFACE, 0) = Ok intf ->
  endpoint_config w =
    (mkWorld d (calls w ++ [CallGetActiveConfiguration])
       (stdout w ++ descriptor_output (endpoints intf)),
     Ok (last (map wMaxPacketSize (filter is_inbound (endpoints intf))) 0)) /\
  List.length (descriptor_output (endpoints intf))
    = (4 * List.length (endpoints intf))%nat.
Proof.
  intros Hc Hi. split.
  - rewrite (endpoint_config_run _ _ _ _ Hc Hi).
    now rewrite inbound_closed_form.
  - unfold descriptor_output.
    induction (endpoints intf) as [|ep eps IH]; [reflexivity|].
    cbn [flat_map]. rewrite length_app, IH. cbn [List.length]. lia.
Qed.

(** X6. If [endpoint_config] raises after the interface was claimed, [main]
    raises the same exception and the process ends on it: nothing was
    printed by [endpoint_config], its one call is the last call of the run,
    so no vector is exchanged and the claimed interface is not released. *)
Theorem config_fault_leaves_interface_claimed w w1 w2 w3 e :
  usb_core_find VID PID w = (w1, Ok true) ->
  prepare_device w1 = (w2, Ok tt) ->
  endpoint_config w2 = (w3, Raise e) ->
  main w = (w3, Raise e) /\
  run w = (w3, exit_status (Raise e)) /\
  calls w3 = calls w2 ++ [CallGetActiveConfiguration] /\
  stdout w3 = stdout w2 /\
  (existsb is_release (calls w) = false ->
   existsb is_release (calls w3) = false).
Proof.
  intros Hfind Hprep Hcfg.
  assert (Hmain : main w = (w3, Raise e)).
  { unfold main. rewrite (bind_ok _ _ _ _ _ Hfind). cbn [negb].
    unfold Py.bind at 1. cbn [Py.ret].
    rewrite (bind_ok _ _ _ _ _ Hprep).
    now rewrite (bind_raise _ _ _ _ _ Hcfg). }
  split; [exact Hmain|]. split; [now rewrite (run_of_main _ _ _ Hmain)|].
  destruct (endpoint_config_cases w2)
    as [(d & cfg & intf & _ & _ & E) | (d & e' & E)];
    rewrite E in Hcfg; inversion Hcfg; subst.
  cbn [calls stdout]. split; [reflexivity|]. split; [reflexivity|].
  intros Hw.
  destruct (find_never_releases _ _ _ Hfind) as (l1 & C1 & F1).
  destruct (prepare_device_never_releases _ _ _ Hprep) as (l2 & C2 & F2).
  rewrite C2, C1.
  apply still_unreleased; [|reflexivity].
  auto using still_unreleased.
Qed.

(** ** The default vectors *)

(** X9. For every packet size above 10 all five default payloads are
    shorter than the packet size (the fifth by exactly one byte), so none
    fills a whole number of packets and every reply fits the one read of
    [pkt_size] bytes. *)
Theorem default_vectors_fit_packet (pkt_size : Z) :
  10 < pkt_size ->
  List.length (tests pkt_size) = 5%nat /\
  Forall (fun v => 0 < len (snd v) < pkt_size) (tests pkt_size) /\
  len (snd (last (tests pkt_size) ("", []))) = pkt_size - 1.
Proof.
  intros Hpkt. split; [reflexivity|].
  assert (L : len (bytes_mul (b_ "A") (pkt_size - 1)) = pkt_size - 1).
  { rewrite bytes_mul_length. cbn. lia. }
  split; [|exact L].
  unfold tests.
  repeat (apply Forall_cons;
          [cbn [snd]; first [rewrite L; lia | cbn; lia]|]).
  apply Forall_nil.
Qed.

(** ** The whole conversation with pyusb *)

Lemma main_after_find w w0 :
  usb_core_find VID PID w = (w0, Ok true) ->
  main w =
    (prepare_device ;;
     pkt_size <- endpoint_config ;;
     test_loop pkt_size (tests pkt_size) ;;
     usb_util_release_interface INTERFACE) w0.
Proof.
  intros Hfind. unfold main. rewrite (bind_ok _ _ _ _ _ Hfind). cbn [negb].
  unfold Py.bind at 1. cbn [Py.ret]. reflexivity.
Qed.

Lemma full_log_nonempty (detached : bool) (pkt_size : Z) :
  full_log detached pkt_size <> [].
Proof. discriminate. Qed.

Lemma main_calls w :
  exists (detached : bool) (pkt_size : Z) l,
    calls (fst (main w)) = calls w ++ l /\
    prefix_of l (full_log detached pkt_size) /\
    (detached = true <->
       exists d0 d1,
         backend_find (dev w) VID PID = (d0, Ok true) /\
         backend_is_kernel_driver_active d0 INTERFACE = (d1, Ok true)) /\
    (forall w0 p, reaches_loop w w0 p -> pkt_size = p) /\
    match snd (main w) with
    | Ok _ => l = full_log detached pkt_size
    | Raise _ => l <> []
    end.
Proof.
  destruct (backend_find (dev w) VID PID) as [d0 [[|]|e]] eqn:Hf.
  - (* the device is there *)
    assert (Hfind : usb_core_find VID PID w
                    = (mkWorld d0 (calls w ++ [CallFind VID PID]) (stdout w),
                       Ok true)).
    { run_script. now rewrite Hf. }
    rewrite (main_after_find _ _ Hfind).
    set (w0 := mkWorld d0 (calls w ++ [CallFind VID PID]) (stdout w)) in *.
    destruct (prepare_device_calls w0)
      as (_ & detached & lp & Hcp & Hpp & Hdet & Hop).
    assert (Hdet' : detached = true <->
              exists d0' d1,
                (d0, Ok true) = (d0', Ok true) /\
                backend_is_kernel_driver_active d0' INTERFACE = (d1, Ok true)).
    { rewrite Hdet. subst w0. cbn [dev]. split.
      - intros [d1 Hq]. exists d0, d1. auto.
      - intros (d0' & d1 & Heq & Hq). inversion Heq; subst. eauto. }
    destruct (prepare_device w0) as [w1 [[]|e]] eqn:Hp; cbn [fst snd] in *.
    + subst lp. rewrite (bind_ok _ _ _ _ _ Hp).
      destruct (endpoint_config_cases w1)
        as [(d & cfg & intf & _ & _ & E) | (d & e & E)].
      * rewrite (bind_ok _ _ _ _ _ E).
        match type of E with _ = (?w2', Ok ?pkt') =>
          set (w2 := w2') in *; set (pkt := pkt') in *
        end.
        assert (Hpkt : forall w0' p, reaches_loop w w0' p -> pkt = p).
        { intros w0' p (x1 & x2 & F1 & F2 & F3).
          rewrite Hfind in F1. inversion F1; subst x1.
          rewrite Hp in F2. inversion F2; subst x2.
          rewrite E in F3. now inversion F3. }
        destruct (test_loop_calls pkt (tests pkt) w2)
          as (lx & Hcx & Hpx & Hox).
        destruct (test_loop pkt (tests pkt) w2) as [w3 [[]|e]] eqn:Hl;
          cbn [fst snd] in *.
        -- subst lx. rewrite (bind_ok _ _ _ _ _ Hl).
           destruct (backend_release_interface (dev w3) INTERFACE)
             as [d4 r] eqn:Hr.
           rewrite (release_interface_run _ _ _ Hr). cbn [fst snd calls].
           exists detached, pkt, (full_log detached pkt).
           split.
           ++ rewrite Hcx. subst w2. cbn [calls]. rewrite Hcp. subst w0.
              cbn [calls]. unfold full_log. now rewrite <- !app_assoc.
           ++ split; [apply prefix_of_refl|]. split; [exact Hdet'|].
              split; [exact Hpkt|].
              destruct r; [reflexivity|apply full_log_nonempty].
        -- rewrite (bind_raise _ _ _ _ _ Hl). cbn [fst snd].
           exists detached, pkt,
             ([CallFind VID PID] ++ prepare_log detached
                ++ [CallGetActiveConfiguration] ++ lx).
           split.
           ++ rewrite Hcx. subst w2. cbn [calls]. rewrite Hcp. subst w0.
              cbn [calls]. now rewrite <- !app_assoc.
           ++ split; [|split; [exact Hdet'|split; [exact Hpkt|discriminate]]].
              unfold full_log.
              do 3 apply prefix_of_app. now apply prefix_of_more.
      * rewrite (bind_raise _ _ _ _ _ E). cbn [fst snd calls].
        exists detached, 0,
          ([CallFind VID PID] ++ prepare_log detached
             ++ [CallGetActiveConfiguration]).
        split.
        -- rewrite Hcp. subst w0. cbn [calls]. now rewrite <- !app_assoc.
        -- split; [|split; [exact Hdet'|split; [|discriminate]]].
           ++ unfold full_log.
              do 2 apply prefix_of_app. apply prefix_of_more, prefix_of_refl.
           ++ intros w0' p (x1 & x2 & F1 & F2 & F3).
              rewrite Hfind in F1. inversion F1; subst x1.
              rewrite Hp in F2. inversion F2; subst x2.
              rewrite E in F3. discriminate.
    + rewrite (bind_raise _ _ _ _ _ Hp). cbn [fst snd].
      exists detached, 0, ([CallFind VID PID] ++ lp).
      split.
      * rewrite Hcp. subst w0. cbn [calls]. now rewrite <- !app_assoc.
      * split; [|split; [exact Hdet'|split; [|discriminate]]].
        -- unfold full_log. apply prefix_of_app. now apply prefix_of_more.
        -- intros w0' p (x1 & x2 & F1 & F2 & F3).
           rewrite Hfind in F1. inversion F1; subst x1.
           rewrite Hp in F2. discriminate.
  - (* no such device *)
    exists false, 0, [CallFind VID PID].
    assert (E : main w =
                (mkWorld d0 (calls w ++ [CallFind VID PID])
                   (stdout w ++ [OutNotFound]),
                 Raise (mkExn SystemExit (IntArg 1)))).
    { run_script. now rewrite Hf. }
    rewrite E. cbn [fst snd calls]. split; [reflexivity|].
    split; [exists 1%nat; reflexivity|].
    split; [|split; [|discriminate]].
    + split; [discriminate|]. intros (d0' & d1 & Heq & _). discriminate.
    + intros w0' p (x1 & x2 & F1 & _). revert F1. run_script.
      rewrite Hf. discriminate.
  - (* the search itself faults *)
    exists false, 0, [CallFind VID PID].
    assert (E : main w =
                (mkWorld d0 (calls w ++ [CallFind VID PID]) (stdout w),
                 Raise e)).
    { run_script. now rewrite Hf. }
    rewrite E. cbn [fst snd calls]. split; [reflexivity|].
    split; [exists 1%nat; reflexivity|].
    split; [|split; [|discriminate]].
    + split; [discriminate|]. intros (d0' & d1 & Heq & _). discriminate.
    + intros w0' p (x1 & x2 & F1 & _). revert F1. run_script.
      rewrite Hf. discriminate.
Qed.

(** X4. Whatever the subsystem answers, the calls of a run of [main] are an
    initial part of one fixed conversation: find, driver query, detach,
    claim, read of the active configuration, then write and read for each
    default vector in order, and release last.  The detach is part of the
    conversation exactly when the device was found and the driver query
    returned true; the vectors and the size of every read are those of the
    packet size [endpoint_config] returned, whenever the run got that far.
    So no vector is exchanged before the interface is claimed and its
    descriptors read, nothing is called after a release, and each of find,
    claim and release happens at most once.  The conversation is complete
    when [main] returns; when it raises, at least the faulting call was
    made. *)
Theorem main_call_order w :
  exists (detached : bool) (pkt_size : Z) l,
    calls (fst (main w)) = calls w ++ l /\
    prefix_of l (full_log detached pkt_size) /\
    (detached = true <->
       exists d0 d1,
         backend_find (dev w) VID PID = (d0, Ok true) /\
         backend_is_kernel_driver_active d0 INTERFACE = (d1, Ok true)) /\
    (forall w0 p, reaches_loop w w0 p -> pkt_size = p) /\
    match snd (main w) with
    | Ok _ => l = full_log detached pkt_size
    | Raise _ => l <> []
    end.
Proof. apply main_calls. Qed.

(** ** No inbound endpoint *)

Lemma absent_from_prefix {A} (p : A -> bool) (l full : list A) :
  prefix_of l full -> existsb p full = false -> existsb p l = false.
Proof.
  intros [n ->]. revert n. induction full as [|x full IH]; intros n Hfull.
  - now rewrite firstn_nil.
  - destruct n as [|n]; [reflexivity|].
    cbn in Hfull |- *. apply orb_false_iff in Hfull as [Hx Hfull].
    rewrite Hx. now apply IH.
Qed.

(** C9, as the code has it.  When no endpoint of the active interface has
    address 0x81, [endpoint_config] returns 0 without raising, the fifth
    default vector is the empty byte string, and [main] enters its loop
    with these vectors: the setup does not fail.  The empty payload is
    written, as the next call, once the first four exchanges are through;
    if one of them raises, the loop ends on that exception and no empty
    payload is ever written. *)
Theorem no_inbound_endpoint w d (cfg : Configuration) (intf : Interface) :
  backend_get_active_configuration (dev w) = (d, Ok cfg) ->
  cfg_getitem cfg (INTERFACE, 0) = Ok intf ->
  (forall ep, In ep (endpoints intf) -> bEndpointAddress ep <> EP_IN) ->
  exists w',
    endpoint_config w = (w', Ok 0) /\
    calls w' = calls w ++ [CallGetActiveConfiguration] /\
    tests 0 = firstn 4 (tests 0) ++ [("pkt_size-1 bytes", [])] /\
    (forall w_start w1,
        usb_core_find VID PID w_start = (w1, Ok true) ->
        prepare_device w1 = (w, Ok tt) ->
        main w_start =
          (test_loop 0 (tests 0) ;; usb_util_release_interface INTERFACE) w') /\
    (forall w4,
        test_loop 0 (firstn 4 (tests 0)) w' = (w4, Ok tt) ->
        exists rest,
          calls (fst (test_loop 0 (tests 0) w'))
            = calls w4 ++ CallWrite EP_OUT [] INTERFACE :: rest) /\
    (forall w4 e,
        test_loop 0 (firstn 4 (tests 0)) w' = (w4, Raise e) ->
        test_loop 0 (tests 0) w' = (w4, Raise e) /\
        exists l,
          calls w4 = calls w' ++ l /\ existsb is_empty_write l = false).
Proof.
  intros Hcfg Hintf Hno.
  pose proof (endpoint_config_run _ _ _ _ Hcfg Hintf) as E.
  rewrite (inbound_absent _ _ Hno) in E.
  eexists. split; [exact E|]. split; [reflexivity|]. split; [reflexivity|].
  split; [|split].
  - intros w_start w1 Hfind Hprep. apply main_enters_loop.
    exists w1, w. auto.
  - intros w4 H4.
    set (pre := firstn 4 (tests 0)) in *.
    change (tests 0) with (pre ++ [("pkt_size-1 bytes", [])]).
    rewrite (test_loop_after _ _ _ _ _ H4).
    destruct (send_and_receive_cases [] 0 w4)
      as [(d1 & r & S) | [(d1 & e & S) | (d1 & e & S)]].
    + rewrite (test_loop_step _ _ _ _ _ _ _ S).
      destruct (bytes_eqb r []); cbn; eexists; reflexivity.
    + rewrite (test_loop_abort _ _ _ _ _ _ _ S). cbn. eexists; reflexivity.
    + rewrite (test_loop_abort _ _ _ _ _ _ _ S). cbn. eexists; reflexivity.
  - intros w4 e H4.
    set (pre := firstn 4 (tests 0)) in *.
    split.
    + change (tests 0) with (pre ++ [("pkt_size-1 bytes", [])]).
      now rewrite test_loop_app, (bind_raise _ _ _ _ _ H4).
    + match type of H4 with test_loop _ _ ?w0 = _ =>
        destruct (test_loop_calls 0 pre w0) as (l & Hc & Hp & _)
      end.
      rewrite H4 in Hc. cbn [fst] in Hc.
      exists l. split; [exact Hc|].
      apply (absent_from_prefix _ _ _ Hp). reflexivity.
Qed.

(** ** A whole run against a faithful peer *)

Lemma echo_loop_run (Inv : D -> Prop) (pkt_size : Z)
    (vectors : list (string * bytes)) w :
  Inv (dev w) ->
  lossless_echo Inv pkt_size vectors ->
  exists d,
    Inv d /\
    test_loop pkt_size vectors w =
      (mkWorld d (calls w ++ exchange_calls pkt_size vectors)
         (stdout w ++ matched_output vectors), Ok tt).
Proof.
  revert w. induction vectors as [|[name data] vectors IH]; intros w Hinv Hecho.
  - exists (dev w). split; [exact Hinv|]. cbn. rewrite !app_nil_r.
    now destruct w.
  - destruct (Hecho (dev w) name data Hinv (or_introl eq_refl))
      as (d1 & d2 & Hw & Hr & Hinv2).
    rewrite (test_loop_step _ _ _ _ _ _ _
               (send_and_receive_ok _ _ _ _ _ _ Hw Hr)), bytes_eqb_refl.
    edestruct IH as (d & Hd & Hrun); cycle 2.
    + exists d. split; [exact Hd|]. rewrite Hrun. cbn.
      now rewrite <- !app_assoc.
    + exact Hinv2.
    + intros d name' payload Hd Hin.
      apply (Hecho d name' payload Hd). now right.
Qed.

(** X8. A whole run against a faithful peer.  If the device is found, the
    detach step passes, the claim succeeds, the configuration with its
    interface (0, 0) is read, the transport echoes the default vectors
    losslessly and the release succeeds, then the process exits with
    status 0, its calls are the complete conversation (find, driver query,
    detach if needed, claim, configuration, write and read per vector,
    release), and it prints the descriptor lines followed by the PING and
    PONG entries of the five vectors, without any mismatch entry. *)
Theorem faithful_run_exits_zero (Inv : D -> Prop) w d0 w1 d2 d3
    (cfg : Configuration) (intf : Interface) :
  backend_find (dev w) VID PID = (d0, Ok true) ->
  detach_passed (mkWorld d0 (calls w ++ [CallFind VID PID]) (stdout w)) w1 ->
  backend_claim_interface (dev w1) INTERFACE = (d2, Ok tt) ->
  backend_get_active_configuration d2 = (d3, Ok cfg) ->
  cfg_getitem cfg (INTERFACE, 0) = Ok intf ->
  let pkt_size :=
    last (map wMaxPacketSize (filter is_inbound (endpoints intf))) 0 in
  Inv d3 ->
  lossless_echo Inv pkt_size (tests pkt_size) ->
  (forall d, Inv d ->
     exists d', backend_release_interface d INTERFACE = (d', Ok tt)) ->
  exists w' (detached : bool),
    run w = (w', 0) /\
    calls w' = calls w ++ full_log detached pkt_size /\
    stdout w' = stdout w ++ descriptor_output (endpoints intf)
                  ++ matched_output (tests pkt_size).
Proof.
  intros Hf Hpass Hclaim Hcfg Hintf pkt_size Hinv Hecho Hrelease.
  set (w0 := mkWorld d0 (calls w ++ [CallFind VID PID]) (stdout w)) in *.
  assert (Hfind : usb_core_find VID PID w = (w0, Ok true)).
  { run_script. now rewrite Hf. }
  destruct (detach_passed_calls _ _ Hpass) as (Hout1 & detached & Hc1 & _).
  pose proof (prepare_device_after_detach _ _ Hpass) as Hprep.
  rewrite (claim_interface_run _ _ _ Hclaim) in Hprep.
  set (w2 := mkWorld d2 (calls w1 ++ [CallClaimInterface INTERFACE])
               (stdout w1)) in *.
  assert (Hend : endpoint_config w2 =
                 (mkWorld d3 (calls w2 ++ [CallGetActiveConfiguration])
                    (stdout w2 ++ descriptor_output (endpoints intf)),
                  Ok pkt_size)).
  { rewrite (endpoint_config_run w2 d3 cfg intf Hcfg Hintf).
    now rewrite inbound_closed_form. }
  set (w3 := mkWorld d3 (calls w2 ++ [CallGetActiveConfiguration])
               (stdout w2 ++ descriptor_output (endpoints intf))) in *.
  destruct (echo_loop_run Inv pkt_size (tests pkt_size) w3 Hinv Hecho)
    as (d4 & Hinv4 & Hloop).
  destruct (Hrelease d4 Hinv4) as (d5 & Hrel).
  assert (Hmain : main w =
                  (mkWorld d5
                     ((calls w3 ++ exchange_calls pkt_size (tests pkt_size))
                        ++ [CallReleaseInterface INTERFACE])
                     (stdout w3 ++ matched_output (tests pkt_size)), Ok tt)).
  { rewrite (main_after_find _ _ Hfind).
    rewrite (bind_ok _ _ _ _ _ Hprep), (bind_ok _ _ _ _ _ Hend).
    rewrite (bind_ok _ _ _ _ _ Hloop).
    now apply release_interface_run. }
  eexists. exists detached.
  split; [exact (run_of_main _ _ _ Hmain)|].
  cbn [calls stdout]. subst w3 w2. cbn [calls stdout].
  rewrite Hc1, Hout1. subst w0. cbn [calls stdout].
  split.
  - unfold full_log, prepare_log, exchange_calls.
    destruct detached; cbn [app]; now rewrite <- !app_assoc.
  - now rewrite <- !app_assoc.
Qed.

End Coverage.

(** ** The further properties on the simulated peer *)

Lemma completed_loop_report_witness :
  test_loop 64 (tests 64) Sim.lossy_loop = (Sim.lossy_done, Ok tt) /\
  exists responses,
    transport_replies 64 (dev Sim.lossy_loop) (tests 64) responses
      (dev Sim.lossy_done) /\
    List.length responses = List.length (tests 64) /\
    stdout Sim.lossy_done
      = stdout Sim.lossy_loop ++ loop_report (tests 64) responses /\
    calls Sim.lossy_done
      = calls Sim.lossy_loop ++ exchange_calls 64 (tests 64).
Proof.
  assert (E : test_loop 64 (tests 64) Sim.lossy_loop = (Sim.lossy_done, Ok tt))
    by by_eval.
  split; [exact E|].
  exact (completed_loop_report 64 (tests 64) Sim.lossy_loop Sim.lossy_done E).
Defined.

Lemma write_fault_aborts_run_witness :
  let payload := b_ "1234567890" in
  test_loop 64 (firstn 1 (tests 64)) Sim.jam_loop = (Sim.jam_w1, Ok tt) /\
  backend_write (dev Sim.jam_w1) EP_OUT payload INTERFACE
    = (Sim.jam_d1, Raise Sim.usb_error) /\
  test_loop 64 (firstn 1 (tests 64) ++ ("Digits", payload) :: skipn 2 (tests 64))
    Sim.jam_loop =
    (mkWorld Sim.jam_d1
       (calls Sim.jam_w1 ++ [CallWrite EP_OUT payload INTERFACE])
       (stdout Sim.jam_w1 ++ [OutPing payload]),
     Raise Sim.usb_error).
Proof.
  cbv zeta.
  assert (H1 : test_loop 64 (firstn 1 (tests 64)) Sim.jam_loop
               = (Sim.jam_w1, Ok tt)) by by_eval.
  assert (H2 : backend_write (dev Sim.jam_w1) EP_OUT (b_ "1234567890")
                 INTERFACE = (Sim.jam_d1, Raise Sim.usb_error)) by by_eval.
  split; [exact H1|]. split; [exact H2|].
  exact (write_fault_aborts_run 64 (firstn 1 (tests 64)) (skipn 2 (tests 64))
           "Digits" (b_ "1234567890") Sim.jam_loop Sim.jam_w1 Sim.jam_d1
           Sim.usb_error H1 H2).
Defined.

Lemma config_fault_leaves_interface_claimed_witness :
  usb_core_find VID PID (Sim.boot Sim.mute) = (Sim.mute_found, Ok true) /\
  prepare_device Sim.mute_found = (Sim.mute_prepared, Ok tt) /\
  endpoint_config Sim.mute_prepared = (Sim.mute_failed, Raise Sim.usb_error) /\
  main (Sim.boot Sim.mute) = (Sim.mute_failed, Raise Sim.usb_error) /\
  run (Sim.boot Sim.mute) = (Sim.mute_failed, exit_status (Raise Sim.usb_error)) /\
  calls Sim.mute_failed
    = calls Sim.mute_prepared ++ [CallGetActiveConfiguration] /\
  stdout Sim.mute_failed = stdout Sim.mute_prepared /\
  existsb is_claim (calls Sim.mute_failed) = true /\
  existsb is_release (calls Sim.mute_failed) = false.
Proof.
  assert (H1 : usb_core_find VID PID (Sim.boot Sim.mute)
               = (Sim.mute_found, Ok true)) by by_eval.
  assert (H2 : prepare_device Sim.mute_found = (Sim.mute_prepared, Ok tt))
    by by_eval.
  assert (H3 : endpoint_config Sim.mute_prepared
               = (Sim.mute_failed, Raise Sim.usb_error)) by by_eval.
  destruct (config_fault_leaves_interface_claimed _ _ _ _ _ H1 H2 H3)
    as (Hmain & Hrun & Hcalls & Hout & Hrel).
  split; [exact H1|]. split; [exact H2|]. split; [exact H3|].
  split; [exact Hmain|]. split; [exact Hrun|]. split; [exact Hcalls|].
  split; [exact Hout|]. split; [by_eval|]. apply Hrel. by_eval.
Defined.

Lemma endpoint_config_closed_form_witness :
  backend_get_active_configuration (dev Sim.twin_prepared)
    = (dev Sim.twin_prepared, Ok [[Sim.twin_interface]]) /\
  cfg_getitem [[Sim.twin_interface]] (INTERFACE, 0) = Ok Sim.twin_interface /\
  endpoint_config Sim.twin_prepared =
    (mkWorld (dev Sim.twin_prepared)
       (calls Sim.twin_prepared ++ [CallGetActiveConfiguration])
       (stdout Sim.twin_prepared
          ++ descriptor_output (endpoints Sim.twin_interface)),
     Ok (last (map wMaxPacketSize
                 (filter is_inbound (endpoints Sim.twin_interface))) 0)) /\
  List.length (descriptor_output (endpoints Sim.twin_interface))
    = (4 * List.length (endpoints Sim.twin_interface))%nat /\
  last (map wMaxPacketSize
          (filter is_inbound (endpoints Sim.twin_interface))) 0 = 64.
Proof.
  assert (H1 : backend_get_active_configuration (dev Sim.twin_prepared)
               = (dev Sim.twin_prepared, Ok [[Sim.twin_interface]]))
    by by_eval.
  assert (H2 : cfg_getitem [[Sim.twin_interface]] (INTERFACE, 0)
               = Ok Sim.twin_interface) by by_eval.
  destruct (endpoint_config_closed_form Sim.twin_prepared _ _ _ H1 H2)
    as [Hrun Hlen].
  split; [exact H1|]. split; [exact H2|]. split; [exact Hrun|].
  split; [exact Hlen|by_eval].
Defined.

Lemma default_vectors_fit_packet_witness :
  10 < 64 /\
  List.length (tests 64) = 5%nat /\
  Forall (fun v => 0 < len (snd v) < 64) (tests 64) /\
  len (snd (last (tests 64) ("", []))) = 64 - 1.
Proof.
  assert (H10 : 10 < 64) by lia.
  split; [exact H10|]. exact (default_vectors_fit_packet 64 H10).
Defined.

Lemma faithful_run_exits_zero_witness :
  let w := Sim.boot Sim.pong in
  let d := dev (Sim.boot Sim.pong) in
  let intf := mkInterface 0 [Sim.bulk_in 64; Sim.bulk_out 64] in
  let w1 :=
    mkWorld d [CallFind VID PID; CallIsKernelDriverActive INTERFACE;
               CallDetachKernelDriver INTERFACE] [] in
  backend_find d VID PID = (d, Ok true) /\
  detach_passed (mkWorld d (calls w ++ [CallFind VID PID]) (stdout w)) w1 /\
  backend_claim_interface (dev w1) INTERFACE = (d, Ok tt) /\
  backend_get_active_configuration d = (d, Ok Sim.pong_config) /\
  cfg_getitem Sim.pong_config (INTERFACE, 0) = Ok intf /\
  last (map wMaxPacketSize (filter is_inbound (endpoints intf))) 0 = 64 /\
  Sim.runs Sim.pong d /\
  lossless_echo (Sim.runs Sim.pong) 64 (tests 64) /\
  (forall d', Sim.runs Sim.pong d' ->
     exists d'', backend_release_interface d' INTERFACE = (d'', Ok tt)) /\
  exists w' (detached : bool),
    run w = (w', 0) /\
    calls w' = calls w ++ full_log detached 64 /\
    stdout w' = stdout w ++ descriptor_output (endpoints intf)
                  ++ matched_output (tests 64).
Proof.
  cbv zeta.
  set (d := dev (Sim.boot Sim.pong)).
  set (intf := mkInterface 0 [Sim.bulk_in 64; Sim.bulk_out 64]).
  set (w1 := mkWorld d [CallFind VID PID; CallIsKernelDriverActive INTERFACE;
                        CallDetachKernelDriver INTERFACE] []).
  assert (H1 : backend_find d VID PID = (d, Ok true)) by by_eval.
  assert (H2 : detach_passed
                 (mkWorld d (calls (Sim.boot Sim.pong) ++ [CallFind VID PID])
                    (stdout (Sim.boot Sim.pong))) w1).
  { exact (passed_detached
             (mkWorld d (calls (Sim.boot Sim.pong) ++ [CallFind VID PID])
                (stdout (Sim.boot Sim.pong))) d d eq_refl eq_refl). }
  assert (H3 : backend_claim_interface (dev w1) INTERFACE = (d, Ok tt))
    by by_eval.
  assert (H4 : backend_get_active_configuration d = (d, Ok Sim.pong_config))
    by by_eval.
  assert (H5 : cfg_getitem Sim.pong_config (INTERFACE, 0) = Ok intf)
    by by_eval.
  assert (H6 : Sim.runs Sim.pong d) by reflexivity.
  assert (H8 : forall d', Sim.runs Sim.pong d' ->
                 exists d'', backend_release_interface d' INTERFACE
                             = (d'', Ok tt)).
  { intros d' Hd'. exists d'. unfold Sim.runs in Hd'.
    cbn [backend_release_interface Sim.backend]. now rewrite Hd'. }
  split; [exact H1|]. split; [exact H2|]. split; [exact H3|].
  split; [exact H4|]. split; [exact H5|]. split; [by_eval|].
  split; [exact H6|]. split; [exact pong_echoes|]. split; [exact H8|].
  exact (faithful_run_exits_zero (Sim.runs Sim.pong) (Sim.boot Sim.pong)
           d w1 d d Sim.pong_config intf H1 H2 H3 H4 H5 H6 pong_echoes H8).
Defined.

Lemma no_inbound_endpoint_witness :
  let intf := mkInterface 0 [Sim.bulk_out 64] in
  let w4 := Sim.out_only_end in
  backend_get_active_configuration (dev Sim.out_only_prepared)
    = (dev Sim.out_only_prepared, Ok Sim.out_only_config) /\
  cfg_getitem Sim.out_only_config (INTERFACE, 0) = Ok intf /\
  (forall ep, In ep (endpoints intf) -> bEndpointAddress ep <> EP_IN) /\
  endpoint_config Sim.out_only_prepared = (Sim.out_only_loop, Ok 0) /\
  nth_error (tests 0) 4 = Some ("pkt_size-1 bytes", []) /\
  test_loop 0 (firstn 4 (tests 0)) Sim.out_only_loop
    = (w4, Raise Sim.value_error) /\
  test_loop 0 (tests 0) Sim.out_only_loop = (w4, Raise Sim.value_error) /\
  exists l,
    calls w4 = calls Sim.out_only_loop ++ l /\
    existsb is_empty_write l = false.
Proof.
  cbv zeta.
  assert (H1 : backend_get_active_configuration (dev Sim.out_only_prepared)
               = (dev Sim.out_only_prepared, Ok Sim.out_only_config))
    by by_eval.
  assert (H2 : cfg_getitem Sim.out_only_config (INTERFACE, 0)
               = Ok (mkInterface 0 [Sim.bulk_out 64])) by by_eval.
  assert (H3 : forall ep, In ep (endpoints (mkInterface 0 [Sim.bulk_out 64])) ->
                          bEndpointAddress ep <> EP_IN).
  { intros ep [<-|[]]. vm_compute. discriminate. }
  assert (E0 : endpoint_config Sim.out_only_prepared
               = (Sim.out_only_loop, Ok 0)) by by_eval.
  assert (H4 : test_loop 0 (firstn 4 (tests 0)) Sim.out_only_loop
               = (Sim.out_only_end, Raise Sim.value_error)) by by_eval.
  destruct (no_inbound_endpoint Sim.out_only_prepared _ _ _ H1 H2 H3)
    as (w' & Hcfg & _ & _ & _ & _ & Hraise).
  assert (Ew : w' = Sim.out_only_loop).
  { rewrite E0 in Hcfg. now inversion Hcfg. }
  subst w'. destruct (Hraise _ _ H4) as [Hloop Hnone].
  split; [exact H1|]. split; [exact H2|]. split; [exact H3|].
  split; [exact E0|]. split; [reflexivity|]. split; [exact H4|].
  split; [exact Hloop|exact Hnone].
Defined.
